(** * github-actions-mcp-server: the request/response contract layer

    A shallow embedding of [src/common/utils.ts], [src/common/errors.ts] and
    [src/operations/actions.ts], and the properties of the validators, the
    error mapping, the request gateway and the operations.

    Conventions of the embedding.
    - A JavaScript string is a [string]: a sequence of code units.  The
      embedding covers the code units U+0000..U+00FF, on which [trim] and
      [toLowerCase] are given exactly as ECMAScript defines them.
    - A JavaScript number is a [Z]: the integer-valued numbers (ids, page
      numbers, millisecond time stamps, HTTP statuses).  On the safe
      integers (magnitude below 2^53) [+] and the comparisons are those of
      the doubles.  An integer that no double holds stands for the double
      nearest to it, ties to even, as when the engine reads a numeral;
      [Js.Number_toString] prints that double as [Number.prototype.toString]
      does: the shortest digits that read back as the same double, written
      out in full up to 21 digits and in exponent notation from 1e21 on.
    - A function that can throw returns a [Completion]. *)

From Stdlib Require Import ZArith List String Ascii Bool Lia DecimalString.
Import ListNotations.
Set Warnings "-register-all".
Open Scope string_scope.
Open Scope Z_scope.

(** ** JavaScript strings *)

Module JsString.

Definition code (c : ascii) : N := N_of_ascii c.

Definition in_range (lo hi : N) (c : ascii) : bool :=
  ((lo <=? code c) && (code c <=? hi))%N.

(** WhiteSpace and LineTerminator code points below U+0100:
    TAB, LF, VT, FF, CR, SP and NBSP. *)
Definition isWhiteSpace (c : ascii) : bool :=
  in_range 9 13 c || (code c =? 32)%N || (code c =? 160)%N.

Fixpoint trimStart (s : string) : string :=
  match s with
  | EmptyString => EmptyString
  | String c r => if isWhiteSpace c then trimStart r else s
  end.

Fixpoint trimEnd (s : string) : string :=
  match s with
  | EmptyString => EmptyString
  | String c r =>
      match trimEnd r with
      | EmptyString => if isWhiteSpace c then EmptyString else String c EmptyString
      | r' => String c r'
      end
  end.

(** [String.prototype.trim] *)
Definition trim (s : string) : string := trimEnd (trimStart s).

(** Upper-case letters below U+0100: A-Z and U+00C0..U+00DE except the
    multiplication sign U+00D7; each maps to the code point 32 above. *)
Definition isUpper (c : ascii) : bool :=
  in_range 65 90 c || (in_range 192 222 c && negb (code c =? 215)%N).

Definition lowerChar (c : ascii) : ascii :=
  if isUpper c then ascii_of_N (code c + 32) else c.

(** [String.prototype.toLowerCase] *)
Fixpoint toLowerCase (s : string) : string :=
  match s with
  | EmptyString => EmptyString
  | String c r => String (lowerChar c) (toLowerCase r)
  end.

(** [String.prototype.startsWith] *)
Fixpoint startsWith (s p : string) : bool :=
  match p with
  | EmptyString => true
  | String a p' =>
      match s with
      | EmptyString => false
      | String b s' => Ascii.eqb a b && startsWith s' p'
      end
  end.

(** [String.prototype.endsWith], for a one-unit search string *)
Fixpoint endsWithChar (s : string) (d : ascii) : bool :=
  match s with
  | EmptyString => false
  | String c EmptyString => Ascii.eqb c d
  | String _ r => endsWithChar r d
  end.

(** [String.prototype.includes] *)
Fixpoint includes (s p : string) : bool :=
  startsWith s p ||
  match s with
  | EmptyString => false
  | String _ r => includes r p
  end.

(** ToBoolean on a string: only the empty string is falsy. *)
Definition truthy (s : string) : bool :=
  match s with EmptyString => false | _ => true end.

Fixpoint forallb (p : ascii -> bool) (s : string) : bool :=
  match s with
  | EmptyString => true
  | String c r => p c && forallb p r
  end.

Definition head (s : string) : option ascii :=
  match s with EmptyString => None | String c _ => Some c end.

Fixpoint last (s : string) : option ascii :=
  match s with
  | EmptyString => None
  | String c EmptyString => Some c
  | String _ r => last r
  end.

End JsString.

(** ** Exceptions and completions *)

(** A plain [Error] object: its [name], its [message] and, for the errors
    raised by the transport, the [code] of its [cause]. *)
Record JsError := mkJsError {
  err_name : string;
  err_message : string;
  err_cause_code : option string
}.

(** [new Error(message)] *)
Definition Error (message : string) : JsError := mkJsError "Error" message None.

Inductive Completion (E A : Type) :=
| Return (a : A)
| Throw (e : E).
Arguments Return {E A} a.
Arguments Throw {E A} e.

(** ** The validators of [utils.ts] *)

Module Validator.
Import JsString.

(** The character class [[a-z0-9]] *)
Definition is_alnum (c : ascii) : bool := in_range 97 122 c || in_range 48 57 c.

(** The character class [[a-z0-9_.-]] *)
Definition is_repo_char (c : ascii) : bool :=
  is_alnum c || Ascii.eqb c "_" || Ascii.eqb c "." || Ascii.eqb c "-".

(** [/^[a-z0-9_.-]+$/.test(s)] *)
Definition repo_re_test (s : string) : bool :=
  match s with
  | EmptyString => false
  | _ => forallb is_repo_char s
  end.

(** The lookahead [(?=[a-z0-9])]: the next unit exists and is in the class. *)
Definition lookahead_alnum (s : string) : bool :=
  match s with
  | EmptyString => false
  | String d _ => is_alnum d
  end.

(** [(?:[a-z0-9]|-(?=[a-z0-9])){0,n}$]: at most [n] iterations, each
    consuming one unit, then the end of the input. *)
Fixpoint owner_re_iter (n : nat) (s : string) : bool :=
  match s with
  | EmptyString => true
  | String c r =>
      match n with
      | O => false
      | S n' =>
          if is_alnum c then owner_re_iter n' r
          else if Ascii.eqb c "-" && lookahead_alnum r then owner_re_iter n' r
          else false
      end
  end.

(** [/^[a-z0-9](?:[a-z0-9]|-(?=[a-z0-9])){0,38}$/.test(s)] *)
Definition owner_re_test (s : string) : bool :=
  match s with
  | EmptyString => false
  | String c r => is_alnum c && owner_re_iter 38 r
  end.

Definition validateRepositoryName (name : string) : Completion JsError string :=
  let sanitized := toLowerCase (trim name) in
  if negb (truthy sanitized) then
    Throw (Error "Repository name cannot be empty")
  else if negb (repo_re_test sanitized) then
    Throw (Error "Repository name can only contain lowercase letters, numbers, hyphens, periods, and underscores")
  else if startsWith sanitized "." || endsWithChar sanitized "." then
    Throw (Error "Repository name cannot start or end with a period")
  else Return sanitized.

Definition validateOwnerName (owner : string) : Completion JsError string :=
  let sanitized := toLowerCase (trim owner) in
  if negb (truthy sanitized) then
    Throw (Error "Owner name cannot be empty")
  else if negb (owner_re_test sanitized) then
    Throw (Error "Owner name must start with a letter or number and can contain up to 39 characters")
  else Return sanitized.

(** *** The owner-name rule as the specification words it

    [[a-z0-9](-?[a-z0-9])*], at most 39 characters. *)
Inductive owner_rule_tail : string -> Prop :=
| tail_end : owner_rule_tail ""
| tail_alnum c r :
    is_alnum c = true -> owner_rule_tail r -> owner_rule_tail (String c r)
| tail_hyphen c r :
    is_alnum c = true -> owner_rule_tail r ->
    owner_rule_tail (String "-" (String c r)).

Definition owner_rule (s : string) : Prop :=
  exists c r, s = String c r /\ is_alnum c = true /\ owner_rule_tail r /\
              (String.length s <= 39)%nat.

End Validator.

(** ** JavaScript values

    The values a response body can hold: what [response.json()] parses, or
    the text of [response.text()] as a [JStr].  [undefined] is the [None] of
    [option Json]. *)

Inductive Json :=
| JNull
| JBool (b : bool)
| JNum (n : Z)
| JStr (s : string)
| JArr (items : list Json)
| JObj (fields : list (string * Json)).

Module Js.

(** the decimal digits of an integer *)
Definition decimal (n : Z) : string := NilZero.string_of_int (Z.to_int n).

Definition digits_of (n : Z) : Z := Z.of_nat (String.length (decimal n)).

(** the double nearest to a non-negative integer, ties to even; every
    integer below 2^53 is a double, and from there on the doubles are the
    multiples of [2 ^ e] with a 53-bit quotient *)
Definition toDouble (n : Z) : Z :=
  if n <? 2 ^ 53 then n
  else
    let e := Z.log2 n - 52 in
    let q := n / 2 ^ e in
    let r := n mod 2 ^ e in
    let half := 2 ^ (e - 1) in
    (if (half <? r) || ((r =? half) && Z.odd q) then q + 1 else q) * 2 ^ e.

(** Number::toString, step 5: the values [s * 10 ^ (n - k)] with [k] digits
    [s] that read back as the double [x]; of two, the one closer to [x], and
    the even [s] when they are as close *)
Definition shortest_at (x : Z) (k : Z) : option Z :=
  let p := digits_of x - k in
  let lo := x / 10 ^ p * 10 ^ p in
  let hi := lo + 10 ^ p in
  match toDouble lo =? x, toDouble hi =? x with
  | true, true =>
      Some (if x - lo <? hi - x then lo
            else if hi - x <? x - lo then hi
            else if Z.even (x / 10 ^ p) then lo else hi)
  | true, false => Some lo
  | false, true => Some hi
  | false, false => None
  end.

(** [k] as small as possible; 17 digits tell any two doubles apart *)
Fixpoint shortest_from (x : Z) (k : Z) (fuel : nat) : Z :=
  match fuel with
  | O => x
  | S fuel' =>
      match shortest_at x k with
      | Some v => v
      | None => shortest_from x (k + 1) fuel'
      end
  end.

Definition shortest (x : Z) : Z :=
  if x <? 2 ^ 53 then x else shortest_from x 1 17.

Fixpoint stripZeros (rev_digits : list ascii) : list ascii :=
  match rev_digits with
  | "0"%char :: rest => stripZeros rest
  | _ => rev_digits
  end.

(** the digits of [s]: the decimal digits without the trailing zeros *)
Definition significant (digits : string) : string :=
  string_of_list_ascii (rev (stripZeros (rev (list_ascii_of_string digits)))).

(** Number::toString, steps 10-12: [d.ddde+n] *)
Definition exponential (v : Z) : string :=
  match significant (decimal v) with
  | String d rest =>
      String d (if (String.length rest =? 0)%nat then "" else "." ++ rest)
        ++ "e+" ++ decimal (digits_of v - 1)
  | EmptyString => ""
  end.

(** [Number.prototype.toString] on an integer-valued number: the digits in
    full when there are at most 21 of them (step 7), exponent notation
    otherwise; beyond the largest double the number is [Infinity] *)
Definition Number_toString (n : Z) : string :=
  let x := toDouble (Z.abs n) in
  (if n <? 0 then "-" else "")
    ++ (if 2 ^ 1024 <=? x then "Infinity"
        else
          let v := shortest x in
          if digits_of v <=? 21 then decimal v else exponential v).

Fixpoint lookup {A} (k : string) (fields : list (string * A)) : option A :=
  match fields with
  | [] => None
  | (k', v) :: rest => if String.eqb k k' then Some v else lookup k rest
  end.

(** [v?.k] for a property name [k] that no prototype defines ([message],
    [reset_at]): the own property of an object, [undefined] otherwise. *)
Definition get (v : option Json) (k : string) : option Json :=
  match v with
  | Some (JObj fields) => lookup k fields
  | _ => None
  end.

(** ToBoolean *)
Definition truthy (v : option Json) : bool :=
  match v with
  | None | Some JNull => false
  | Some (JBool b) => b
  | Some (JNum n) => negb (n =? 0)
  | Some (JStr s) => JsString.truthy s
  | Some (JArr _) | Some (JObj _) => true
  end.

(** [a || b], with the right operand a value *)
Definition or_else (a : option Json) (b : Json) : Json :=
  match a with
  | Some v => if truthy a then v else b
  | None => b
  end.

(** ToString.  An array joins its elements with a comma, [null] giving the
    empty string.  A parsed object has no callable [toString] of its own:
    it inherits [Object.prototype.toString] unless it has an own property
    of that name, and then the conversion throws a [TypeError] ([None]). *)
Fixpoint ToString (v : Json) : option string :=
  match v with
  | JNull => Some "null"
  | JBool true => Some "true"
  | JBool false => Some "false"
  | JNum n => Some (Number_toString n)
  | JStr s => Some s
  | JArr items =>
      (fix join (l : list Json) : option string :=
         match l with
         | [] => Some ""
         | x :: rest =>
             match (match x with JNull => Some "" | _ => ToString x end) with
             | None => None
             | Some sx =>
                 match rest with
                 | [] => Some sx
                 | _ => match join rest with
                        | None => None
                        | Some sr => Some (sx ++ "," ++ sr)
                        end
                 end
             end
         end) items
  | JObj fields =>
      match lookup "toString" fields with
      | Some _ => None
      | None => Some "[object Object]"
      end
  end.

Definition TypeError (message : string) : JsError := mkJsError "TypeError" message None.
Definition RangeError (message : string) : JsError := mkJsError "RangeError" message None.

(** ToString as a completion; a template literal [`${v}`] uses it. *)
Definition toString (v : Json) : Completion JsError string :=
  match ToString v with
  | Some s => Return s
  | None => Throw (TypeError "Cannot convert object to primitive value")
  end.

(** [Error.prototype.toString] *)
Definition Error_toString (e : JsError) : string :=
  if negb (JsString.truthy (err_name e)) then err_message e
  else if negb (JsString.truthy (err_message e)) then err_name e
  else err_name e ++ ": " ++ err_message e.

(** TimeClip: a time value is valid within 8.64e15 ms of the epoch. *)
Definition TimeClip (t : Z) : option Z :=
  if Z.abs t <=? 8640000000000000 then Some t else None.

(** [new Date(v)] for a value [v]: the time value of the date, [None] for
    an invalid date.  A string is parsed with the engine's [Date.parse]; a
    boolean or [null] converts to a number; an object or array converts to
    a string first, which throws as [toString] does. *)
Definition new_Date (Date_parse : string -> option Z) (v : Json)
  : Completion JsError (option Z) :=
  match v with
  | JNum n => Return (TimeClip n)
  | JBool b => Return (TimeClip (if b then 1 else 0))
  | JNull => Return (TimeClip 0)
  | JStr s => Return (Date_parse s)
  | JArr _ | JObj _ =>
      match toString v with
      | Return s => Return (Date_parse s)
      | Throw e => Throw e
      end
  end.

(** [Date.prototype.toISOString] fails on an invalid date. *)
Definition valid_time (d : option Z) : Completion JsError Z :=
  match d with
  | Some t => Return t
  | None => Throw (RangeError "Invalid time value")
  end.

End Js.

(** ** The error taxonomy of [errors.ts] *)

Module Errors.
Import Js.

(** The classes; a class with a field of its own carries it:
    [resetAt] (the time value of the [Date]), [timeoutMs], [errorCode]. *)
Inductive ErrorClass :=
| Generic
| Validation
| ResourceNotFound
| Authentication
| Permission
| RateLimit (resetAt : Z)
| Timeout (timeoutMs : Z)
| Network (errorCode : string)
| Conflict.

(** The [response] payload of an error: a value, or the object literal
    [{ message, reset_at: resetAt.toISOString() }] of a rate-limit error,
    kept as the message and the time value of [resetAt]. *)
Inductive Payload :=
| Body (v : Json)
| MessageResetAt (message : Json) (resetAt : Z).

Record GitHubError := mkGitHubError {
  class : ErrorClass;
  message : string;
  status : Z;
  response : Payload
}.

(** [this.name] *)
Definition name (e : GitHubError) : string :=
  match class e with
  | Generic => "GitHubError"
  | Validation => "GitHubValidationError"
  | ResourceNotFound => "GitHubResourceNotFoundError"
  | Authentication => "GitHubAuthenticationError"
  | Permission => "GitHubPermissionError"
  | RateLimit _ => "GitHubRateLimitError"
  | Timeout _ => "GitHubTimeoutError"
  | Network _ => "GitHubNetworkError"
  | Conflict => "GitHubConflictError"
  end.

Definition bind {A B} (c : Completion JsError A) (k : A -> Completion JsError B)
  : Completion JsError B :=
  match c with
  | Return a => k a
  | Throw e => Throw e
  end.

Notation "'let*' x ':=' c 'in' k" := (bind c (fun x => k))
  (at level 61, x name, c at next level, right associativity).

(** The base constructor: [super(message)] converts the message to a
    string. *)
Definition new_GitHubError (c : ErrorClass) (message : Json) (status : Z)
           (response : Payload) : Completion JsError GitHubError :=
  let* m := toString message in
  Return (mkGitHubError c m status response).

Definition new_GitHubValidationError (message : Json) (status : Z) (response : Json) :=
  new_GitHubError Validation message status (Body response).

Definition new_GitHubResourceNotFoundError (resource : Json) :=
  let* r := toString resource in
  new_GitHubError ResourceNotFound (JStr ("Resource not found: " ++ r)) 404
    (Body (JObj [("message", JStr (r ++ " not found"))])).

(** A parameter with a default takes it when the argument is [undefined]. *)
Definition default (message : option Json) (d : string) : Json :=
  match message with
  | Some m => m
  | None => JStr d
  end.

Definition new_GitHubAuthenticationError (message : option Json) :=
  let message := default message "Authentication failed" in
  new_GitHubError Authentication message 401 (Body (JObj [("message", message)])).

Definition new_GitHubPermissionError (message : option Json) :=
  let message := default message "Insufficient permissions" in
  new_GitHubError Permission message 403 (Body (JObj [("message", message)])).

(** [resetAt] is the time value of the date passed, [None] for an invalid
    date, on which [resetAt.toISOString()] throws before [super] runs. *)
Definition new_GitHubRateLimitError (message : option Json) (resetAt : option Z) :=
  let message := default message "Rate limit exceeded" in
  let* t := valid_time resetAt in
  new_GitHubError (RateLimit t) message 429 (MessageResetAt message t).

Definition new_GitHubTimeoutError (message : string) (timeoutMs : Z) :=
  mkGitHubError (Timeout timeoutMs) message 408
    (Body (JObj [("message", JStr message); ("timeout_ms", JNum timeoutMs)])).

Definition new_GitHubNetworkError (message : string) (errorCode : string) :=
  mkGitHubError (Network errorCode) message 500
    (Body (JObj [("message", JStr message); ("error_code", JStr errorCode)])).

Definition new_GitHubConflictError (message : Json) :=
  new_GitHubError Conflict message 409 (Body (JObj [("message", message)])).

(** [error.cause?.code] as a condition: a non-empty code. *)
Definition cause_code (e : JsError) : option string :=
  match err_cause_code e with
  | Some c => if JsString.truthy c then Some c else None
  | None => None
  end.

Definition createEnhancedGitHubError (error : JsError) : GitHubError :=
  if String.eqb (err_name error) "AbortError" then
    new_GitHubTimeoutError ("Request timed out: " ++ err_message error) 30000
  else
    match cause_code error with
    | Some c => new_GitHubNetworkError ("Network error: " ++ err_message error) c
    | None =>
        mkGitHubError Generic (err_message error) 500
          (Body (JObj [("message", JStr (err_message error))]))
    end.

(** [createGitHubError(status, response)]; [now] is what [Date.now()]
    reads and [Date_parse] the engine's [Date.parse]. *)
Definition createGitHubError (Date_parse : string -> option Z) (now : Z)
           (status : Z) (response : Json) : Completion JsError GitHubError :=
  let msg := get (Some response) "message" in
  if status =? 401 then new_GitHubAuthenticationError msg
  else if status =? 403 then new_GitHubPermissionError msg
  else if status =? 404 then
    new_GitHubResourceNotFoundError (or_else msg (JStr "Resource"))
  else if status =? 409 then
    new_GitHubConflictError (or_else msg (JStr "Conflict occurred"))
  else if status =? 422 then
    new_GitHubValidationError (or_else msg (JStr "Validation failed")) status response
  else if status =? 429 then
    let* d := new_Date Date_parse
                (or_else (get (Some response) "reset_at") (JNum (now + 60000))) in
    new_GitHubRateLimitError msg d
  else
    new_GitHubError Generic (or_else msg (JStr "GitHub API error")) status (Body response).

End Errors.

(** ** URLs and [buildUrl] *)

Module Url.

(** A parsed URL object: the serialised scheme, authority and path, the
    query ([None] when null), the list of its [searchParams] and the
    fragment. *)
Record URL := mkURL {
  origin_path : string;
  query : option string;
  searchParams : list (string * string);
  fragment : option string
}.

Definition hexDigit (n : N) : ascii :=
  match String.get (N.to_nat n) "0123456789ABCDEF" with
  | Some c => c
  | None => "0"%char
  end.

Definition percent (b : N) : string :=
  String "%" (String (hexDigit (b / 16)) (String (hexDigit (b mod 16)) "")).

(** The UTF-8 bytes of a code point below U+0100 *)
Definition utf8 (c : ascii) : list N :=
  let n := JsString.code c in
  if (n <? 128)%N then [n] else [(192 + n / 64)%N; (128 + n mod 64)%N].

(** The application/x-www-form-urlencoded byte serialiser: the ASCII
    alphanumerics and [*-._] stay, a space becomes [+], any other byte is
    percent-encoded. *)
Definition encodeByte (b : N) : string :=
  let c := ascii_of_N b in
  if JsString.in_range 48 57 c || JsString.in_range 65 90 c || JsString.in_range 97 122 c
     || (b =? 42)%N || (b =? 45)%N || (b =? 46)%N || (b =? 95)%N
  then String c ""
  else if (b =? 32)%N then "+"
  else percent b.

Fixpoint encode (s : string) : string :=
  match s with
  | EmptyString => EmptyString
  | String c r => String.concat "" (map encodeByte (utf8 c)) ++ encode r
  end.

(** The application/x-www-form-urlencoded serialiser of a list of pairs *)
Definition serialize (l : list (string * string)) : string :=
  String.concat "&" (map (fun kv => encode (fst kv) ++ "=" ++ encode (snd kv)) l).

(** [url.searchParams.append(name, value)]: the pair goes last and the
    query of the URL becomes the serialisation of the list. *)
Definition append (u : URL) (name value : string) : URL :=
  let l := (searchParams u ++ [(name, value)])%list in
  let q := serialize l in
  mkURL (origin_path u) (if JsString.truthy q then Some q else None) l (fragment u).

(** [url.toString()] *)
Definition toString (u : URL) : string :=
  origin_path u
  ++ match query u with Some q => "?" ++ q | None => "" end
  ++ match fragment u with Some f => "#" ++ f | None => "" end.

(** A query-parameter value: [string | number]; [undefined] is [None]. *)
Inductive Scalar :=
| Str (s : string)
| Num (n : Z).

(** [value.toString()], also what a template literal gives *)
Definition Scalar_toString (v : Scalar) : string :=
  match v with
  | Str s => s
  | Num n => Js.Number_toString n
  end.

(** ToBoolean *)
Definition Scalar_truthy (v : Scalar) : bool :=
  match v with
  | Str s => JsString.truthy s
  | Num n => negb (n =? 0)
  end.

(** One step of the [forEach] of [buildUrl] *)
Definition appendParam (u : URL) (entry : string * option Scalar) : URL :=
  match snd entry with
  | Some value => append u (fst entry) (Scalar_toString value)
  | None => u
  end.

(** [buildUrl(baseUrl, params)]; [params] lists the entries of the record in
    the order of [Object.entries], and [URL_parse] is the engine's URL
    parser, [None] where [new URL] throws. *)
Definition buildUrl (URL_parse : string -> option URL)
           (baseUrl : string) (params : list (string * option Scalar))
  : Completion JsError string :=
  match URL_parse baseUrl with
  | None => Throw (Js.TypeError "Invalid URL")
  | Some url => Return (toString (fold_left appendParam params url))
  end.

End Url.

(** ** [JSON.stringify] on a value *)

Module JSON.

Definition dquote : string := String "034"%char "".

Definition lowerHex (n : N) : ascii :=
  match String.get (N.to_nat n) "0123456789abcdef" with
  | Some c => c
  | None => "0"%char
  end.

(** QuoteJSONString on one code unit *)
Definition escapeChar (c : ascii) : string :=
  let n := JsString.code c in
  if (n =? 8)%N then "\b"
  else if (n =? 9)%N then "\t"
  else if (n =? 10)%N then "\n"
  else if (n =? 12)%N then "\f"
  else if (n =? 13)%N then "\r"
  else if (n =? 34)%N then "\" ++ dquote
  else if (n =? 92)%N then "\\"
  else if (n <? 32)%N then
    "\u00" ++ String (lowerHex (n / 16)) (String (lowerHex (n mod 16)) "")
  else String c "".

Fixpoint escape (s : string) : string :=
  match s with
  | EmptyString => EmptyString
  | String c r => escapeChar c ++ escape r
  end.

Definition quote (s : string) : string := dquote ++ escape s ++ dquote.

Fixpoint stringify (v : Json) : string :=
  match v with
  | JNull => "null"
  | JBool true => "true"
  | JBool false => "false"
  | JNum n => Js.Number_toString n
  | JStr s => quote s
  | JArr items =>
      "[" ++ String.concat "," (map stringify items) ++ "]"
  | JObj fields =>
      "{" ++ String.concat ","
               ((fix members (l : list (string * Json)) : list string :=
                   match l with
                   | [] => []
                   | (k, x) :: rest => (quote k ++ ":" ++ stringify x) :: members rest
                   end) fields)
          ++ "}"
  end.

End JSON.

(** ** The request gateway of [utils.ts] *)

Module Gateway.
Import Errors.

(** What [fetch] is called with: the URL, the [method], [headers] and
    [body] of its init record, and the delay of the abort timer armed for
    the call. *)
Record FetchCall := mkFetchCall {
  fetch_url : string;
  fetch_method : string;
  fetch_headers : list (string * string);
  fetch_body : option string;
  fetch_timeout : Z
}.

(** A response: its status, its [content-type] header, and what
    [response.json()] and [response.text()] settle to. *)
Record Response := mkResponse {
  resp_status : Z;
  resp_content_type : option string;
  resp_json : Completion JsError Json;
  resp_text : Completion JsError string
}.

(** [response.ok] *)
Definition ok (r : Response) : bool :=
  (200 <=? resp_status r) && (resp_status r <=? 299).

(** The world outside the module: the successive readings of
    [Date.now()], what the [k]-th [fetch] of the process settles to, the
    engine's [Date.parse] and URL parser, the access token of the
    environment and the user-agent string. *)
Record Env := mkEnv {
  clock : nat -> Z;
  fetch : nat -> FetchCall -> Completion JsError Response;
  Date_parse : string -> option Z;
  URL_parse : string -> option Url.URL;
  GITHUB_PERSONAL_ACCESS_TOKEN : option string;
  USER_AGENT : string
}.

(** The module-level variables [requestCount] and
    [requestCountResetTime], with the number of clock readings taken and
    the calls of [fetch] made so far, the oldest first. *)
Record State := mkState {
  requestCount : Z;
  requestCountResetTime : Z;
  clock_reads : nat;
  fetched : list FetchCall
}.

(** What can be thrown: a plain error or a [GitHubError]. *)
Inductive Exn :=
| Plain (e : JsError)
| GitHub (e : GitHubError).

Definition M (A : Type) : Type := State -> Completion Exn A * State.

Definition ret {A} (a : A) : M A := fun s => (Return a, s).
Definition throw {A} (e : Exn) : M A := fun s => (Throw e, s).
Definition bind {A B} (m : M A) (k : A -> M B) : M B :=
  fun s => match m s with
           | (Return a, s') => k a s'
           | (Throw e, s') => (Throw e, s')
           end.

Declare Scope gateway_scope.
Delimit Scope gateway_scope with gateway.
Notation "x <- m ;; k" := (bind m (fun x => k))
  (at level 61, m at next level, right associativity) : gateway_scope.
Notation "m ;; k" := (bind m (fun _ => k))
  (at level 61, right associativity) : gateway_scope.
Open Scope gateway_scope.

(** A pure computation that can throw a plain error *)
Definition lift {A} (c : Completion JsError A) : M A :=
  match c with
  | Return a => ret a
  | Throw e => throw (Plain e)
  end.

(** [Date.now()] *)
Definition Date_now (env : Env) : M Z :=
  fun s => (Return (clock env (clock_reads s)),
            mkState (requestCount s) (requestCountResetTime s)
                    (S (clock_reads s)) (fetched s)).

Definition get_requestCount : M Z := fun s => (Return (requestCount s), s).
Definition get_requestCountResetTime : M Z :=
  fun s => (Return (requestCountResetTime s), s).
Definition set_requestCount (n : Z) : M unit :=
  fun s => (Return tt, mkState n (requestCountResetTime s) (clock_reads s) (fetched s)).
Definition set_requestCountResetTime (t : Z) : M unit :=
  fun s => (Return tt, mkState (requestCount s) t (clock_reads s) (fetched s)).

(** [await fetch(url, init)]: the call is recorded and settles as the
    world decides. *)
Definition do_fetch (env : Env) (call : FetchCall) : M Response :=
  fun s =>
    let s' := mkState (requestCount s) (requestCountResetTime s) (clock_reads s)
                      (fetched s ++ [call]) in
    match fetch env (List.length (fetched s)) call with
    | Return r => (Return r, s')
    | Throw e => (Throw (Plain e), s')
    end.

(** [try { body } catch (error) { handler }] *)
Definition try_catch {A} (body : M A) (handler : Exn -> M A) : M A :=
  fun s => match body s with
           | (Return a, s') => (Return a, s')
           | (Throw e, s') => handler e s'
           end.

(** [parseResponseBody(response)] *)
Definition parseResponseBody (response : Response) : Completion JsError Json :=
  let as_text :=
    match resp_text response with
    | Return t => Return (JStr t)
    | Throw e => Throw e
    end in
  match resp_content_type response with
  | Some contentType =>
      if JsString.includes contentType "application/json" then
        match resp_json response with
        | Return v => Return v
        | Throw error =>
            Throw (Error ("Error parsing JSON response: " ++ Js.Error_toString error))
        end
      else as_text
  | None => as_text
  end.

Record RequestOptions := mkRequestOptions {
  method : option string;
  body : option Json;
  headers : list (string * string);
  timeout : option Z
}.

(** The default [{}] of the [options] parameter *)
Definition no_options : RequestOptions := mkRequestOptions None None [] None.

(** Setting a property of a record of headers: an existing key keeps its
    place and takes the new value, a new key goes last. *)
Fixpoint assign (k v : string) (o : list (string * string)) : list (string * string) :=
  match o with
  | [] => [(k, v)]
  | (k', v') :: rest =>
      if String.eqb k k' then (k, v) :: rest else (k', v') :: assign k v rest
  end.

Definition spread (o extra : list (string * string)) : list (string * string) :=
  fold_left (fun acc kv => assign (fst kv) (snd kv) acc) extra o.

Definition DEFAULT_TIMEOUT : Z := 30000.
Definition MAX_REQUESTS_PER_MINUTE : Z := 60.

(** [Math.ceil(waitTime / 1000)] *)
Definition ceil_seconds (waitTime : Z) : Z := - ((- waitTime) / 1000).

Definition rate_limit_message (waitTime : Z) : string :=
  "Rate limit exceeded. Please try again in "
    ++ Js.Number_toString (ceil_seconds waitTime) ++ " seconds.".

Definition invalid_url_message : string :=
  "Invalid GitHub API URL. Only https://api.github.com/ URLs are allowed.".

(** [createGitHubError] as [githubRequest] calls it: [Date.now()] is read
    only where the source evaluates it, for a 429 whose [reset_at] is
    falsy. *)
Definition createGitHubError_now (env : Env) (status : Z) (response : Json)
  : M GitHubError :=
  if (status =? 429) && negb (Js.truthy (Js.get (Some response) "reset_at")) then
    now <- Date_now env ;;
    lift (createGitHubError (Date_parse env) now status response)
  else
    lift (createGitHubError (Date_parse env) 0 status response).

(** The [catch] block of [githubRequest] *)
Definition on_error {A} (timeout : Z) (error : Exn) : M A :=
  match error with
  | Plain e =>
      if String.eqb (err_name e) "AbortError" then
        throw (GitHub (new_GitHubTimeoutError
                         ("Request timeout after " ++ Js.Number_toString timeout ++ "ms")
                         timeout))
      else
        match err_cause_code e with
        | Some c =>
            if String.eqb c "ENOTFOUND" || String.eqb c "ECONNREFUSED" then
              throw (GitHub (new_GitHubNetworkError "Unable to connect to GitHub API" c))
            else throw (GitHub (createEnhancedGitHubError e))
        | None => throw (GitHub (createEnhancedGitHubError e))
        end
  | GitHub g => throw (GitHub g)
  end.

(** The rate window: a reading of the clock past the reset time starts a
    new window. *)
Definition roll_window (env : Env) : M unit :=
  now <- Date_now env ;;
  resetTime <- get_requestCountResetTime ;;
  if now >? resetTime then
    set_requestCount 0 ;;
    now' <- Date_now env ;;
    set_requestCountResetTime (now' + 60000)
  else ret tt.

(** The quota check and the admission [requestCount++] *)
Definition admit_request (env : Env) : M unit :=
  count <- get_requestCount ;;
  if count >=? MAX_REQUESTS_PER_MINUTE then
    resetTime <- get_requestCountResetTime ;;
    now <- Date_now env ;;
    throw (Plain (Error (rate_limit_message (resetTime - now))))
  else set_requestCount (count + 1).

(** The headers of a request: the three fixed ones, the caller's spread
    over them, and the bearer token of the environment when there is one. *)
Definition request_headers (env : Env) (options : RequestOptions)
  : list (string * string) :=
  let headers :=
    spread [("Accept", "application/vnd.github.v3+json");
            ("Content-Type", "application/json");
            ("User-Agent", USER_AGENT env)] (headers options) in
  match GITHUB_PERSONAL_ACCESS_TOKEN env with
  | Some token =>
      if JsString.truthy token then assign "Authorization" ("Bearer " ++ token) headers
      else headers
  | None => headers
  end.

(** [options.timeout || DEFAULT_TIMEOUT] *)
Definition request_timeout (options : RequestOptions) : Z :=
  match timeout options with
  | Some t => if t =? 0 then DEFAULT_TIMEOUT else t
  | None => DEFAULT_TIMEOUT
  end.

(** The arguments of the call of [fetch] *)
Definition fetch_call (env : Env) (url : string) (options : RequestOptions)
  : FetchCall :=
  mkFetchCall url
    (match method options with
     | Some m => if JsString.truthy m then m else "GET"
     | None => "GET"
     end)
    (request_headers env options)
    (if Js.truthy (body options)
     then option_map JSON.stringify (body options) else None)
    (request_timeout options).

(** The request itself: the [try] block and its [catch] *)
Definition send (env : Env) (url : string) (options : RequestOptions) : M Json :=
  try_catch
    (response <- do_fetch env (fetch_call env url options) ;;
     responseBody <- lift (parseResponseBody response) ;;
     if negb (ok response) then
       e <- createGitHubError_now env (resp_status response) responseBody ;;
       throw (GitHub e)
     else ret responseBody)
    (on_error (request_timeout options)).

Definition githubRequest (env : Env) (url : string) (options : RequestOptions)
  : M Json :=
  roll_window env ;;
  admit_request env ;;
  if negb (JsString.startsWith url "https://api.github.com/") then
    throw (Plain (Error invalid_url_message))
  else send env url options.

End Gateway.

(** ** The operations of [actions.ts] *)

Module Operations.
Import Gateway Url Validator.

Section WithSchemas.

(** The zod schemas of [types.ts] enter through their [parse]; no
    property below depends on what they accept. *)
Variable WorkflowRunsSchema_parse : Json -> Completion JsError Json.
Variable JobsSchema_parse : Json -> Completion JsError Json.

Record ListWorkflowRunsOptions := mkListWorkflowRunsOptions {
  workflowId : option Scalar;
  actor : option string;
  branch : option string;
  event : option string;
  status : option string;
  created : option string;
  excludePullRequests : option bool;
  checkSuiteId : option Z;
  page : option Z;
  perPage : option Z
}.

(** The default [{}] of the [options] parameter *)
Definition no_list_options : ListWorkflowRunsOptions :=
  mkListWorkflowRunsOptions None None None None None None None None None None.

(** The record of query parameters [listWorkflowRuns] hands to
    [buildUrl] *)
Definition listWorkflowRuns_params (options : ListWorkflowRunsOptions)
  : list (string * option Scalar) :=
  [ ("actor", option_map Str (actor options));
    ("branch", option_map Str (branch options));
    ("event", option_map Str (event options));
    ("status", option_map Str (status options));
    ("created", option_map Str (created options));
    ("exclude_pull_requests",
      match excludePullRequests options with
      | Some true => Some (Str "true")
      | _ => None
      end);
    ("check_suite_id", option_map Num (checkSuiteId options));
    ("page", option_map Num (page options));
    ("per_page", option_map Num (perPage options)) ].

Definition listWorkflowRuns_base (owner repo : string)
           (options : ListWorkflowRunsOptions) : string :=
  match workflowId options with
  | Some id =>
      if Scalar_truthy id then
        "https://api.github.com/repos/" ++ owner ++ "/" ++ repo
          ++ "/actions/workflows/" ++ Scalar_toString id ++ "/runs"
      else "https://api.github.com/repos/" ++ owner ++ "/" ++ repo ++ "/actions/runs"
  | None => "https://api.github.com/repos/" ++ owner ++ "/" ++ repo ++ "/actions/runs"
  end.

Definition listWorkflowRuns (env : Env) (owner repo : string)
           (options : ListWorkflowRunsOptions) : M Json :=
  owner <- lift (validateOwnerName owner) ;;
  repo <- lift (validateRepositoryName repo) ;;
  url <- lift (buildUrl (URL_parse env) (listWorkflowRuns_base owner repo options)
                        (listWorkflowRuns_params options)) ;;
  response <- githubRequest env url no_options ;;
  lift (WorkflowRunsSchema_parse response).

(** The [filter] of [getWorkflowRunJobs]: ['latest' | 'all'] *)
Inductive JobFilter := latest | all.

Definition JobFilter_toString (f : JobFilter) : string :=
  match f with latest => "latest" | all => "all" end.

Definition getWorkflowRunJobs (env : Env) (owner repo : string) (runId : Z)
           (filter : option JobFilter) (page perPage : option Z) : M Json :=
  owner <- lift (validateOwnerName owner) ;;
  repo <- lift (validateRepositoryName repo) ;;
  url <- lift (buildUrl (URL_parse env)
                 ("https://api.github.com/repos/" ++ owner ++ "/" ++ repo
                    ++ "/actions/runs/" ++ Js.Number_toString runId ++ "/jobs")
                 [ ("filter", option_map (fun f => Str (JobFilter_toString f)) filter);
                   ("page", option_map Num page);
                   ("per_page", option_map Num perPage) ]) ;;
  response <- githubRequest env url no_options ;;
  lift (JobsSchema_parse response).

End WithSchemas.

(** The request body of [triggerWorkflow]: [{ ref }], with [inputs] when
    given and not empty. *)
Definition triggerWorkflow_body (ref : string) (inputs : option (list (string * string)))
  : Json :=
  JObj (("ref", JStr ref) ::
        match inputs with
        | Some l =>
            if (0 <? List.length l)%nat
            then [("inputs", JObj (map (fun kv => (fst kv, JStr (snd kv))) l))]
            else []
        | None => []
        end).

Definition triggerWorkflow (env : Env) (owner repo : string) (workflowId : Scalar)
           (ref : string) (inputs : option (list (string * string))) : M Json :=
  owner <- lift (validateOwnerName owner) ;;
  repo <- lift (validateRepositoryName repo) ;;
  let url := "https://api.github.com/repos/" ++ owner ++ "/" ++ repo
               ++ "/actions/workflows/" ++ Scalar_toString workflowId ++ "/dispatches" in
  githubRequest env url
    (mkRequestOptions (Some "POST") (Some (triggerWorkflow_body ref inputs)) [] None) ;;
  ret (JObj [ ("success", JBool true);
              ("message", JStr ("Workflow " ++ Scalar_toString workflowId
                                  ++ " triggered on " ++ ref)) ]).

End Operations.

(** ** A sample world

    A concrete environment on which the operations run: an engine that
    knows the URLs [https://api.github.com/<path>] written with unreserved
    characters and no dot segment (the URL standard parses these to
    themselves) and the dates in the format of [toISOString], a clock that
    advances one millisecond a reading, and a network that answers every
    request [204 No Content]. *)

Module Sample.
Import Gateway.

Definition is_path_char (c : ascii) : bool :=
  JsString.in_range 48 57 c || JsString.in_range 65 90 c || JsString.in_range 97 122 c
  || Ascii.eqb c "-" || Ascii.eqb c "." || Ascii.eqb c "_" || Ascii.eqb c "~"
  || Ascii.eqb c "/".

Fixpoint drop (n : nat) (s : string) : string :=
  match n, s with
  | S n', String _ r => drop n' r
  | _, _ => s
  end.

Definition URL_parse (s : string) : option Url.URL :=
  let path := drop 22 s in
  if JsString.startsWith s "https://api.github.com/"
     && JsString.forallb is_path_char path
     && negb (JsString.includes path "/.")
  then Some (Url.mkURL s None [] None)
  else None.

Definition digit (c : ascii) : option Z :=
  if JsString.in_range 48 57 c then Some (Z.of_N (JsString.code c) - 48) else None.

Fixpoint number (acc : Z) (l : list ascii) : option Z :=
  match l with
  | [] => Some acc
  | c :: r =>
      match digit c with
      | Some d => number (10 * acc + d) r
      | None => None
      end
  end.

Definition is_leap (y : Z) : bool :=
  (y mod 4 =? 0) && (negb (y mod 100 =? 0) || (y mod 400 =? 0)).

Definition days_in_month (y m : Z) : Z :=
  if m =? 2 then (if is_leap y then 29 else 28)
  else if (m =? 4) || (m =? 6) || (m =? 9) || (m =? 11) then 30
  else 31.

(** The day number of a civil date, day 0 being 1970-01-01 *)
Definition days_from_civil (y m d : Z) : Z :=
  let y := if m <=? 2 then y - 1 else y in
  let era := y / 400 in
  let yoe := y - era * 400 in
  let doy := (153 * (if m >? 2 then m - 3 else m + 9) + 2) / 5 + d - 1 in
  let doe := yoe * 365 + yoe / 4 - yoe / 100 + doy in
  era * 146097 + doe - 719468.

(** [Date.parse] on [YYYY-MM-DDTHH:mm:ss.sssZ] *)
Definition Date_parse (s : string) : option Z :=
  match list_ascii_of_string s with
  | [y1; y2; y3; y4; "-"; m1; m2; "-"; d1; d2; "T";
     h1; h2; ":"; n1; n2; ":"; s1; s2; "."; f1; f2; f3; "Z"]%char =>
      match number 0 [y1; y2; y3; y4], number 0 [m1; m2], number 0 [d1; d2],
            number 0 [h1; h2], number 0 [n1; n2], number 0 [s1; s2],
            number 0 [f1; f2; f3] with
      | Some y, Some m, Some d, Some h, Some n, Some sec, Some ms =>
          if (1 <=? m) && (m <=? 12) && (1 <=? d) && (d <=? days_in_month y m)
             && (h <=? 23) && (n <=? 59) && (sec <=? 59)
          then Some ((((days_from_civil y m d * 24 + h) * 60 + n) * 60 + sec) * 1000 + ms)
          else None
      | _, _, _, _, _, _, _ => None
      end
  | _ => None
  end.

Definition no_content : Response :=
  mkResponse 204 None
    (Throw (mkJsError "SyntaxError" "Unexpected end of JSON input" None))
    (Return "").

Definition env : Env :=
  mkEnv (fun k => 1700000000000 + Z.of_nat k)
        (fun _ _ => Return no_content)
        Date_parse URL_parse None "github-actions-mcp/v1.0.0 node".

(** The module as loaded at time 1700000000000: no request counted, the
    window open for 60 seconds, nothing read or sent since. *)
Definition start : State := mkState 0 1700000060000 0 [].

(** The counter at the ceiling within the window *)
Definition exhausted : State := mkState 60 1700000060000 0 [].

(** The counter at the ceiling, the window over *)
Definition elapsed : State := mkState 60 1699999999999 0 [].

(** The same world with the clock stopped *)
Definition still : Env :=
  mkEnv (fun _ => 1700000000000) (fetch env) (Gateway.Date_parse env)
        (Gateway.URL_parse env) (GITHUB_PERSONAL_ACCESS_TOKEN env) (USER_AGENT env).

(** The options of [listWorkflowRuns] with only [excludePullRequests] set *)
Definition only_flag (b : bool) : Operations.ListWorkflowRunsOptions :=
  Operations.mkListWorkflowRunsOptions None None None None None None (Some b) None None None.

(** Sixty calls, some of them off the trusted host *)
Definition sixty_calls : list (string * RequestOptions) :=
  (repeat ("https://api.github.com/user", no_options) 58
   ++ [("http://evil.example/", no_options);
       ("https://api.github.com/rate_limit", no_options)])%list.

End Sample.

(** ** Vocabulary of the properties *)

Module Props.
Import Gateway.

(** The pairs a record of parameters contributes to a query: those whose
    value is defined, in order, each value through [toString]. *)
Fixpoint defined_pairs (params : list (string * option Url.Scalar))
  : list (string * string) :=
  match params with
  | [] => []
  | (k, Some v) :: rest => (k, Url.Scalar_toString v) :: defined_pairs rest
  | (_, None) :: rest => defined_pairs rest
  end.

(** The keys of a query *)
Definition keys (l : list (string * string)) : list string := map fst l.

(** The state a call of [githubRequest] leaves *)
Definition after (env : Env) (url : string) (options : RequestOptions) (s : State)
  : State :=
  snd (githubRequest env url options s).

(** The state a sequence of calls leaves, one call after the other.  The
    part of a call that comes after its admission touches neither the
    counter nor the reset time, so the order in which the requests
    themselves settle does not matter to the window. *)
Definition after_all (env : Env) (calls : list (string * RequestOptions)) (s : State)
  : State :=
  fold_left (fun st c => after env (fst c) (snd c) st) calls s.

(** The counter as the quota check of a call starting in [s] sees it,
    the window rolled *)
Definition count_checked (env : Env) (s : State) : Z :=
  requestCount (snd (roll_window env s)).

(** A call is a local URL failure when it throws the plain error of the
    URL check. *)
Definition url_error : Exn := Plain (Error invalid_url_message).

Definition is_rate_limit_error (e : Exn) : Prop :=
  exists waitTime, e = Plain (Error (rate_limit_message waitTime)).

(** A status with no case of its own in [createGitHubError] *)
Definition unmapped (status : Z) : Prop :=
  status <> 401 /\ status <> 403 /\ status <> 404 /\ status <> 409
  /\ status <> 422 /\ status <> 429.

(** The trusted host *)
Definition on_trusted_host (url : string) : bool :=
  JsString.startsWith url "https://api.github.com/".

(** The state after the window is rolled at a reading of the clock past
    the reset time, and after it is found open. *)
Definition rolled (env : Env) (s : State) : State :=
  if clock env (clock_reads s) >? requestCountResetTime s
  then mkState 0 (clock env (S (clock_reads s)) + 60000)
               (S (S (clock_reads s))) (fetched s)
  else mkState (requestCount s) (requestCountResetTime s)
               (S (clock_reads s)) (fetched s).

(** The state after an admission *)
Definition admitted (s : State) : State :=
  mkState (requestCount s + 1) (requestCountResetTime s) (clock_reads s) (fetched s).

(** The state after a refusal: the clock was read once more. *)
Definition refused (s : State) : State :=
  mkState (requestCount s) (requestCountResetTime s) (S (clock_reads s)) (fetched s).

End Props.

(** ** The remaining operations of [actions.ts] *)

Module Actions.
Import Gateway Url Validator Operations.

Definition listWorkflows (WorkflowsSchema_parse : Json -> Completion JsError Json)
           (env : Env) (owner repo : string) (page perPage : option Z) : M Json :=
  owner <- lift (validateOwnerName owner) ;;
  repo <- lift (validateRepositoryName repo) ;;
  url <- lift (buildUrl (URL_parse env)
                 ("https://api.github.com/repos/" ++ owner ++ "/" ++ repo
                    ++ "/actions/workflows")
                 [ ("page", option_map Num page);
                   ("per_page", option_map Num perPage) ]) ;;
  response <- githubRequest env url no_options ;;
  lift (WorkflowsSchema_parse response).

Definition getWorkflow (WorkflowSchema_parse : Json -> Completion JsError Json)
           (env : Env) (owner repo : string) (workflowId : Scalar) : M Json :=
  owner <- lift (validateOwnerName owner) ;;
  repo <- lift (validateRepositoryName repo) ;;
  let url := "https://api.github.com/repos/" ++ owner ++ "/" ++ repo
               ++ "/actions/workflows/" ++ Scalar_toString workflowId in
  response <- githubRequest env url no_options ;;
  lift (WorkflowSchema_parse response).

Definition getWorkflowUsage (WorkflowUsageSchema_parse : Json -> Completion JsError Json)
           (env : Env) (owner repo : string) (workflowId : Scalar) : M Json :=
  owner <- lift (validateOwnerName owner) ;;
  repo <- lift (validateRepositoryName repo) ;;
  let url := "https://api.github.com/repos/" ++ owner ++ "/" ++ repo
               ++ "/actions/workflows/" ++ Scalar_toString workflowId ++ "/timing" in
  response <- githubRequest env url no_options ;;
  lift (WorkflowUsageSchema_parse response).

Definition getWorkflowRun (WorkflowRunSchema_parse : Json -> Completion JsError Json)
           (env : Env) (owner repo : string) (runId : Z) : M Json :=
  owner <- lift (validateOwnerName owner) ;;
  repo <- lift (validateRepositoryName repo) ;;
  let url := "https://api.github.com/repos/" ++ owner ++ "/" ++ repo
               ++ "/actions/runs/" ++ Js.Number_toString runId in
  response <- githubRequest env url no_options ;;
  lift (WorkflowRunSchema_parse response).

(** The options [{ method: 'POST' }] *)
Definition post : RequestOptions := mkRequestOptions (Some "POST") None [] None.

Definition cancelWorkflowRun (env : Env) (owner repo : string) (runId : Z) : M Json :=
  owner <- lift (validateOwnerName owner) ;;
  repo <- lift (validateRepositoryName repo) ;;
  let url := "https://api.github.com/repos/" ++ owner ++ "/" ++ repo
               ++ "/actions/runs/" ++ Js.Number_toString runId ++ "/cancel" in
  githubRequest env url post ;;
  ret (JObj [ ("success", JBool true);
              ("message", JStr ("Workflow run " ++ Js.Number_toString runId
                                  ++ " cancelled")) ]).

Definition rerunWorkflowRun (env : Env) (owner repo : string) (runId : Z) : M Json :=
  owner <- lift (validateOwnerName owner) ;;
  repo <- lift (validateRepositoryName repo) ;;
  let url := "https://api.github.com/repos/" ++ owner ++ "/" ++ repo
               ++ "/actions/runs/" ++ Js.Number_toString runId ++ "/rerun" in
  githubRequest env url post ;;
  ret (JObj [ ("success", JBool true);
              ("message", JStr ("Workflow run " ++ Js.Number_toString runId
                                  ++ " restarted")) ]).

End Actions.

(** ** The tool handler of the server entry file *)

Module Server.
Import Errors Gateway Url Operations Actions.

Definition newline : string := String "010"%char "".

(** [error.response] as a value: the payload of a rate-limit error holds
    the date as the engine prints it. *)
Definition Payload_value (toISOString : Z -> string) (p : Payload) : Json :=
  match p with
  | Body v => v
  | MessageResetAt m t => JObj [("message", m); ("reset_at", JStr (toISOString t))]
  end.

(** [formatGitHubError(error)]; [toISOString] is the engine's
    [Date.prototype.toISOString] on a valid time value. *)
Definition formatGitHubError (toISOString : Z -> string) (error : GitHubError)
  : string :=
  match class error with
  | Validation =>
      let message := "Validation Error: " ++ message error in
      if Js.truthy (Some (Payload_value toISOString (response error))) then
        message ++ newline ++ "Details: "
                ++ JSON.stringify (Payload_value toISOString (response error))
      else message
  | ResourceNotFound => "Not Found: " ++ message error
  | Authentication => "Authentication Failed: " ++ message error
  | Permission => "Permission Denied: " ++ message error
  | RateLimit resetAt =>
      "Rate Limit Exceeded: " ++ message error ++ newline
        ++ "Resets at: " ++ toISOString resetAt
  | Conflict => "Conflict: " ++ message error
  | Timeout timeoutMs =>
      "Timeout: " ++ message error ++ newline
        ++ "Timeout setting: " ++ Js.Number_toString timeoutMs ++ "ms"
  | Network errorCode =>
      "Network Error: " ++ message error ++ newline ++ "Error code: " ++ errorCode
  | Generic => "GitHub API Error: " ++ message error
  end.

(** What the handler can catch: a [ZodError] with its list of issues, or
    what an operation throws. *)
Inductive Caught :=
| ZodError (errors : Json)
| Thrown (e : Exn).

(** The [catch] block of the tool handler: what it throws in turn. *)
Definition rethrow (toISOString : Z -> string) (error : Caught) : Caught :=
  match error with
  | ZodError errors => Thrown (Plain (Error ("Invalid input: " ++ JSON.stringify errors)))
  | Thrown (GitHub g) => Thrown (Plain (Error (formatGitHubError toISOString g)))
  | Thrown (Plain e) => Thrown (Plain e)
  end.

(** The [parse] of the response schemas of [types.ts] *)
Record Schemas := mkSchemas {
  WorkflowsSchema_parse : Json -> Completion JsError Json;
  WorkflowSchema_parse : Json -> Completion JsError Json;
  WorkflowUsageSchema_parse : Json -> Completion JsError Json;
  WorkflowRunsSchema_parse : Json -> Completion JsError Json;
  WorkflowRunSchema_parse : Json -> Completion JsError Json;
  JobsSchema_parse : Json -> Completion JsError Json
}.

(** A tool call, its arguments as the input schema of the tool types
    them: the cases of the [switch] of the handler. *)
Inductive ToolCall :=
| list_workflows (owner repo : string) (page perPage : option Z)
| get_workflow (owner repo : string) (workflowId : Scalar)
| get_workflow_usage (owner repo : string) (workflowId : Scalar)
| list_workflow_runs (owner repo : string) (options : ListWorkflowRunsOptions)
| get_workflow_run (owner repo : string) (runId : Z)
| get_workflow_run_jobs (owner repo : string) (runId : Z) (filter : option JobFilter)
                        (page perPage : option Z)
| trigger_workflow (owner repo : string) (workflowId : Scalar) (ref : string)
                   (inputs : option (list (string * string)))
| cancel_workflow_run (owner repo : string) (runId : Z)
| rerun_workflow (owner repo : string) (runId : Z).

(** The operation each case of the [switch] awaits *)
Definition callOperation (schemas : Schemas) (env : Env) (call : ToolCall) : M Json :=
  match call with
  | list_workflows owner repo page perPage =>
      listWorkflows (WorkflowsSchema_parse schemas) env owner repo page perPage
  | get_workflow owner repo workflowId =>
      getWorkflow (WorkflowSchema_parse schemas) env owner repo workflowId
  | get_workflow_usage owner repo workflowId =>
      getWorkflowUsage (WorkflowUsageSchema_parse schemas) env owner repo workflowId
  | list_workflow_runs owner repo options =>
      listWorkflowRuns (WorkflowRunsSchema_parse schemas) env owner repo options
  | get_workflow_run owner repo runId =>
      getWorkflowRun (WorkflowRunSchema_parse schemas) env owner repo runId
  | get_workflow_run_jobs owner repo runId filter page perPage =>
      getWorkflowRunJobs (JobsSchema_parse schemas) env owner repo runId filter page perPage
  | trigger_workflow owner repo workflowId ref inputs =>
      triggerWorkflow env owner repo workflowId ref inputs
  | cancel_workflow_run owner repo runId => cancelWorkflowRun env owner repo runId
  | rerun_workflow owner repo runId => rerunWorkflowRun env owner repo runId
  end.

Definition call_owner (call : ToolCall) : string :=
  match call with
  | list_workflows owner _ _ _ | get_workflow owner _ _ | get_workflow_usage owner _ _
  | list_workflow_runs owner _ _ | get_workflow_run owner _ _
  | get_workflow_run_jobs owner _ _ _ _ _ | trigger_workflow owner _ _ _ _
  | cancel_workflow_run owner _ _ | rerun_workflow owner _ _ => owner
  end.

Definition call_repo (call : ToolCall) : string :=
  match call with
  | list_workflows _ repo _ _ | get_workflow _ repo _ | get_workflow_usage _ repo _
  | list_workflow_runs _ repo _ | get_workflow_run _ repo _
  | get_workflow_run_jobs _ repo _ _ _ _ | trigger_workflow _ repo _ _ _
  | cancel_workflow_run _ repo _ | rerun_workflow _ repo _ => repo
  end.

End Server.

(** ** Further vocabulary *)

Module Terms.
Import Errors Gateway.

(** The class [createGitHubError] has for a status *)
Definition class_for (status : Z) (c : ErrorClass) : Prop :=
  match c with
  | Authentication => status = 401
  | Permission => status = 403
  | ResourceNotFound => status = 404
  | Conflict => status = 409
  | Validation => status = 422
  | RateLimit _ => status = 429
  | Generic => Props.unmapped status
  | Timeout _ | Network _ => False
  end.

(** The message of an error built from a body without a [message] *)
Definition default_message (status : Z) : string :=
  if status =? 401 then "Authentication failed"
  else if status =? 403 then "Insufficient permissions"
  else if status =? 404 then "Resource not found: Resource"
  else if status =? 409 then "Conflict occurred"
  else if status =? 422 then "Validation failed"
  else if status =? 429 then "Rate limit exceeded"
  else "GitHub API error".

(** The characters the serialiser of a query leaves or produces *)
Definition is_query_char (c : ascii) : bool :=
  JsString.in_range 48 57 c || JsString.in_range 65 90 c || JsString.in_range 97 122 c
  || Ascii.eqb c "*" || Ascii.eqb c "-" || Ascii.eqb c "." || Ascii.eqb c "_"
  || Ascii.eqb c "+" || Ascii.eqb c "%".

(** The characters of a serialised query: the former and the separators *)
Definition is_query_or_separator (c : ascii) : bool :=
  is_query_char c || Ascii.eqb c "=" || Ascii.eqb c "&".

(** The characters of an owner name: [[a-z0-9-]] *)
Definition is_owner_char (c : ascii) : bool :=
  Validator.is_alnum c || Ascii.eqb c "-".

(** The window is sound: the counter between zero and the ceiling. *)
Definition counter_in_bounds (s : State) : Prop :=
  0 <= requestCount s <= MAX_REQUESTS_PER_MINUTE.

(** From [s] to [s'] one request at most was sent, to the trusted host. *)
Definition at_most_one_request (s s' : State) : Prop :=
  exists sent, fetched s' = (fetched s ++ sent)%list
               /\ (List.length sent <= 1)%nat
               /\ Forall (fun c => Props.on_trusted_host (fetch_url c) = true) sent.

(** The two classes are the same, whatever their fields hold. *)
Definition same_class (c c' : ErrorClass) : Prop :=
  match c, c' with
  | Generic, Generic | Validation, Validation | ResourceNotFound, ResourceNotFound
  | Authentication, Authentication | Permission, Permission
  | RateLimit _, RateLimit _ | Timeout _, Timeout _ | Network _, Network _
  | Conflict, Conflict => True
  | _, _ => False
  end.

(** The characters the serialiser of a query leaves as they are *)
Definition is_unreserved (c : ascii) : bool :=
  JsString.in_range 48 57 c || JsString.in_range 65 90 c || JsString.in_range 97 122 c
  || Ascii.eqb c "*" || Ascii.eqb c "-" || Ascii.eqb c "." || Ascii.eqb c "_".

(** A pair whose key and value the serialiser leaves as they are *)
Definition plain_pair (kv : string * string) : bool :=
  JsString.forallb is_unreserved (fst kv) && JsString.forallb is_unreserved (snd kv).

(** The query [k1=v1&k2=v2...] of a list of pairs, nothing escaped *)
Definition plain_query (pairs : list (string * string)) : string :=
  String.concat "&" (map (fun kv => fst kv ++ "=" ++ snd kv) pairs).

(** The text of a URL after [pairs] were appended to its query: the URL as
    it was when there is none; otherwise its scheme, authority and path,
    then [?] and the serialisation of the pairs it had followed by the new
    ones, then its fragment. *)
Definition with_query (url : Url.URL) (pairs : list (string * string)) : string :=
  Url.origin_path url
    ++ match pairs with
       | [] => match Url.query url with Some q => "?" ++ q | None => "" end
       | _ => "?" ++ Url.serialize (Url.searchParams url ++ pairs)
       end
    ++ match Url.fragment url with Some f => "#" ++ f | None => "" end.

(** The query parameters of the runs of a workflow, in the order
    [listWorkflowRuns] names them *)
Definition query_parameters : list string :=
  ["actor"; "branch"; "event"; "status"; "created"; "exclude_pull_requests";
   "check_suite_id"; "page"; "per_page"].

(** The value a request of [listWorkflowRuns] carries for the query
    parameter [k]: that of the option when it is set, [true] for
    [exclude_pull_requests] when the flag is true, and none otherwise. *)
Definition parameter_value (options : Operations.ListWorkflowRunsOptions) (k : string)
  : option string :=
  if String.eqb k "actor" then Operations.actor options
  else if String.eqb k "branch" then Operations.branch options
  else if String.eqb k "event" then Operations.event options
  else if String.eqb k "status" then Operations.status options
  else if String.eqb k "created" then Operations.created options
  else if String.eqb k "exclude_pull_requests" then
    match Operations.excludePullRequests options with
    | Some true => Some "true"
    | _ => None
    end
  else if String.eqb k "check_suite_id" then
    option_map Js.Number_toString (Operations.checkSuiteId options)
  else if String.eqb k "page" then option_map Js.Number_toString (Operations.page options)
  else if String.eqb k "per_page" then
    option_map Js.Number_toString (Operations.perPage options)
  else None.

(** The pairs [listWorkflowRuns] is to append: one for each parameter that
    has a value, in order *)
Definition expected_query (options : Operations.ListWorkflowRunsOptions)
  : list (string * string) :=
  flat_map (fun k => match parameter_value options k with
                     | Some v => [(k, v)]
                     | None => []
                     end) query_parameters.

End Terms.

(** ** Further sample worlds *)

Module Worlds.
Import Gateway.

(** The sample world with a network that answers every request as given *)
Definition answering (outcome : Completion JsError Response) : Env :=
  mkEnv (clock Sample.env) (fun _ _ => outcome)
        (Date_parse Sample.env) (URL_parse Sample.env) None (USER_AGENT Sample.env).

(** Every request is aborted by its timer. *)
Definition aborting : Env :=
  answering (Throw (mkJsError "AbortError" "This operation was aborted" None)).

(** The host name does not resolve. *)
Definition unreachable : Env :=
  answering (Throw (mkJsError "TypeError" "fetch failed" (Some "ENOTFOUND"))).

(** A JSON response whose body does not parse *)
Definition garbled : Response :=
  mkResponse 200 (Some "application/json; charset=utf-8")
    (Throw (mkJsError "SyntaxError" "Unexpected token < in JSON at position 0" None))
    (Return "<html>").

(** A 404 with the body of the API *)
Definition not_found : Response :=
  mkResponse 404 (Some "application/json; charset=utf-8")
    (Return (JObj [("message", JStr "Not Found")]))
    (Return "").

(** Response schemas that accept every body *)
Definition passthrough : Server.Schemas :=
  Server.mkSchemas (fun j => Return j) (fun j => Return j) (fun j => Return j)
                   (fun j => Return j) (fun j => Return j) (fun j => Return j).

(** The sample world with an access token *)
Definition authenticated : Env :=
  mkEnv (clock Sample.env) (fetch Sample.env)
        (Date_parse Sample.env) (URL_parse Sample.env) (Some "ghp_token")
        (USER_AGENT Sample.env).

End Worlds.

(** * Properties *)

(** ** The validators *)

Module ValidatorFacts.
Import JsString Validator.

Ltac by_cases_on_char c :=
  destruct c as [[] [] [] [] [] [] [] []]; vm_compute; try reflexivity; try discriminate.

Lemma hyphen_not_alnum : is_alnum "-" = false.
Proof. reflexivity. Qed.

Lemma alnum_is_repo_char c : is_alnum c = true -> is_repo_char c = true.
Proof. unfold is_repo_char. intros ->. reflexivity. Qed.

Lemma repo_char_not_space c : is_repo_char c = true -> isWhiteSpace c = false.
Proof. by_cases_on_char c. Qed.

Lemma repo_char_lower c : is_repo_char c = true -> lowerChar c = c.
Proof. by_cases_on_char c. Qed.

Lemma truthy_false s : truthy s = false <-> s = "".
Proof. destruct s; simpl; split; intros H; try reflexivity; discriminate. Qed.

(** The regular expression of the code and the rule of the
    specification accept the same tails. *)
Lemma owner_re_iter_sound n : forall s,
  owner_re_iter n s = true -> owner_rule_tail s /\ (String.length s <= n)%nat.
Proof.
  induction n as [|n IH]; intros [|c r] H; simpl in *;
    try discriminate; try (split; [constructor | lia]).
  destruct (is_alnum c) eqn:Hc.
  - destruct (IH _ H) as [Ht Hl]. split; [now apply tail_alnum | lia].
  - destruct (Ascii.eqb c "-") eqn:Hh; simpl in H; [|discriminate].
    apply Ascii.eqb_eq in Hh. subst c.
    destruct r as [|d r']; simpl in H; [discriminate|].
    destruct (is_alnum d) eqn:Hd; [|discriminate].
    destruct (IH _ H) as [Ht Hl]. split; [|simpl in *; lia].
    apply tail_hyphen; [exact Hd|].
    inversion Ht; subst; [assumption|].
    rewrite hyphen_not_alnum in Hd. discriminate.
Qed.

Lemma owner_re_iter_complete s :
  owner_rule_tail s -> forall n, (String.length s <= n)%nat -> owner_re_iter n s = true.
Proof.
  induction 1 as [|c r Hc Ht IH|c r Hc Ht IH]; intros n Hn.
  - destruct n; reflexivity.
  - destruct n as [|n]; simpl in *; [lia|].
    rewrite Hc. apply IH. lia.
  - destruct n as [|[|n]]; simpl in *; try lia.
    rewrite Hc. simpl. apply IH. lia.
Qed.

Lemma owner_re_test_rule s : owner_re_test s = true <-> owner_rule s.
Proof.
  split.
  - destruct s as [|c r]; unfold owner_re_test; [discriminate|].
    intros H. apply andb_true_iff in H as [Hc Hr].
    apply owner_re_iter_sound in Hr as [Ht Hl].
    exists c, r. repeat split; try assumption.
    change (S (String.length r) <= 39)%nat. lia.
  - intros (c & r & -> & Hc & Ht & Hl). unfold owner_re_test.
    rewrite Hc. apply owner_re_iter_complete; [assumption|].
    change (S (String.length r) <= 39)%nat in Hl. lia.
Qed.

Lemma forallb_impl (p q : ascii -> bool) s :
  (forall c, p c = true -> q c = true) -> forallb p s = true -> forallb q s = true.
Proof.
  intros Hpq. induction s as [|c r IH]; simpl; [reflexivity|].
  intros H. apply andb_true_iff in H as [Hc Hr].
  rewrite (Hpq _ Hc), (IH Hr). reflexivity.
Qed.

Lemma toLowerCase_fixed s : forallb is_repo_char s = true -> toLowerCase s = s.
Proof.
  induction s as [|c r IH]; simpl; [reflexivity|].
  intros H. apply andb_true_iff in H as [Hc Hr].
  rewrite (repo_char_lower _ Hc), (IH Hr). reflexivity.
Qed.

Lemma trimEnd_fixed s : forallb is_repo_char s = true -> trimEnd s = s.
Proof.
  induction s as [|c r IH]; simpl; [reflexivity|].
  intros H. apply andb_true_iff in H as [Hc Hr].
  rewrite (IH Hr). destruct r; [|reflexivity].
  rewrite (repo_char_not_space _ Hc). reflexivity.
Qed.

Lemma trimStart_fixed s : forallb is_repo_char s = true -> trimStart s = s.
Proof.
  destruct s as [|c r]; simpl; [reflexivity|].
  intros H. apply andb_true_iff in H as [Hc _].
  rewrite (repo_char_not_space _ Hc). reflexivity.
Qed.

Lemma sanitize_fixed s :
  forallb is_repo_char s = true -> toLowerCase (trim s) = s.
Proof.
  intros H. unfold trim.
  rewrite (trimStart_fixed _ H), (trimEnd_fixed _ H). now apply toLowerCase_fixed.
Qed.

Lemma repo_re_test_chars s : repo_re_test s = true -> forallb is_repo_char s = true.
Proof. destruct s; simpl; [discriminate | trivial]. Qed.

Lemma startsWith_period s : startsWith s "." = true <-> head s = Some "."%char.
Proof.
  destruct s as [|c r]; cbn [startsWith head]; [split; discriminate|].
  destruct (Ascii.eqb_spec "." c) as [<-|Hne]; cbn [andb].
  - split; [reflexivity | destruct r; reflexivity].
  - split; [discriminate | intros [= ->]; contradiction].
Qed.

Lemma endsWith_period s : endsWithChar s "." = true <-> last s = Some "."%char.
Proof.
  induction s as [|c r IH]; simpl; [split; discriminate|].
  destruct r as [|d r']; [|exact IH].
  split.
  - intros H. apply Ascii.eqb_eq in H. now subst.
  - intros [= ->]. reflexivity.
Qed.

(** What a validator accepts: the value it returns is its sanitised
    argument, and that passes every check. *)
Lemma validateRepositoryName_Return name v :
  validateRepositoryName name = Return v ->
  v = toLowerCase (trim name) /\ repo_re_test v = true
  /\ startsWith v "." = false /\ endsWithChar v "." = false.
Proof.
  unfold validateRepositoryName.
  destruct (truthy (toLowerCase (trim name))); simpl; [|discriminate].
  destruct (repo_re_test (toLowerCase (trim name))) eqn:Hre; simpl; [|discriminate].
  destruct (startsWith (toLowerCase (trim name)) ".") eqn:Hs; simpl; [discriminate|].
  destruct (endsWithChar (toLowerCase (trim name)) ".") eqn:He; simpl; [discriminate|].
  intros [= <-]. repeat split; assumption.
Qed.

(** C6.  For every input string, [validateOwnerName] works on the trimmed,
    lower-cased string: it fails when that is empty, fails when that does
    not match the rule [[a-z0-9](-?[a-z0-9])*] of at most 39 characters,
    and returns it when it matches the rule. *)
Theorem validateOwnerName_rule (owner : string) :
  let sanitized := toLowerCase (trim owner) in
  (sanitized = "" ->
   validateOwnerName owner = Throw (Error "Owner name cannot be empty"))
  /\ (sanitized <> "" -> ~ owner_rule sanitized ->
      validateOwnerName owner =
        Throw (Error "Owner name must start with a letter or number and can contain up to 39 characters"))
  /\ (owner_rule sanitized -> validateOwnerName owner = Return sanitized).
Proof.
  intros sanitized. unfold validateOwnerName. fold sanitized.
  destruct (truthy sanitized) eqn:Ht.
  - assert (Hne : sanitized <> "") by (intros E; rewrite E in Ht; discriminate).
    destruct (owner_re_test sanitized) eqn:Hre; cbn [negb].
    + apply owner_re_test_rule in Hre.
      repeat split; intros; try reflexivity; contradiction.
    + assert (Hno : ~ owner_rule sanitized).
      { intros Hr. apply owner_re_test_rule in Hr. congruence. }
      repeat split; intros; try reflexivity; contradiction.
  - apply truthy_false in Ht. cbn [negb].
    repeat split; intros; try reflexivity; try contradiction.
    destruct H as (c & r & E & _). congruence.
Qed.

Lemma validateOwnerName_rule_witness :
  validateOwnerName "  Octo-Cat " = Return "octo-cat"
  /\ validateOwnerName " " = Throw (Error "Owner name cannot be empty")
  /\ validateOwnerName "a--b" =
       Throw (Error "Owner name must start with a letter or number and can contain up to 39 characters")
  /\ validateOwnerName "-a" = validateOwnerName "a--b"
  /\ validateOwnerName "a-" = validateOwnerName "a--b"
  /\ validateOwnerName "a234567890123456789012345678901234567890" = validateOwnerName "a--b".
Proof.
  split; [|split; [|split; [|repeat split]]].
  - apply (proj2 (proj2 (validateOwnerName_rule "  Octo-Cat "))).
    apply owner_re_test_rule. vm_compute. reflexivity.
  - apply (proj1 (validateOwnerName_rule " ")). vm_compute. reflexivity.
  - apply (proj1 (proj2 (validateOwnerName_rule "a--b"))).
    + vm_compute. discriminate.
    + intros H. apply owner_re_test_rule in H. vm_compute in H. discriminate.
Defined.

(** C7.  [validateRepositoryName] fails for every name whose trimmed,
    lower-cased form is empty, has a character outside [[a-z0-9_.-]], or
    starts or ends with a period; and it is idempotent on what it
    returns. *)
Theorem validateRepositoryName_rejects_and_idempotent (name : string) :
  let sanitized := toLowerCase (trim name) in
  (sanitized = "" \/ forallb is_repo_char sanitized = false
   \/ head sanitized = Some "."%char \/ last sanitized = Some "."%char ->
   exists e, validateRepositoryName name = Throw e)
  /\ (forall v, validateRepositoryName name = Return v ->
                validateRepositoryName v = Return v).
Proof.
  intros sanitized. split.
  - unfold validateRepositoryName. fold sanitized.
    intros [H | [H | [H | H]]].
    + rewrite H. cbn. eauto.
    + destruct (truthy sanitized); cbn [negb]; [|eauto].
      assert (Hre : repo_re_test sanitized = false).
      { destruct sanitized; [reflexivity | exact H]. }
      rewrite Hre. cbn [negb]. eauto.
    + apply startsWith_period in H. rewrite H.
      destruct (truthy sanitized), (repo_re_test sanitized); cbn; eauto.
    + apply endsWith_period in H. rewrite H. rewrite orb_true_r.
      destruct (truthy sanitized), (repo_re_test sanitized); cbn; eauto.
  - intros v Hv.
    destruct (validateRepositoryName_Return _ _ Hv) as (_ & Hre & Hs & He).
    unfold validateRepositoryName.
    rewrite (sanitize_fixed _ (repo_re_test_chars _ Hre)).
    rewrite Hre, Hs, He.
    destruct v; [discriminate | reflexivity].
Qed.

Lemma validateRepositoryName_rejects_and_idempotent_witness :
  validateRepositoryName " My.Repo_1 " = Return "my.repo_1"
  /\ validateRepositoryName "my.repo_1" = Return "my.repo_1"
  /\ (exists e, validateRepositoryName ".github" = Throw e)
  /\ (exists e, validateRepositoryName "a b" = Throw e).
Proof.
  split; [vm_compute; reflexivity|]. split; [|split].
  - apply (proj2 (validateRepositoryName_rejects_and_idempotent " My.Repo_1 ")).
    vm_compute. reflexivity.
  - apply (proj1 (validateRepositoryName_rejects_and_idempotent ".github")).
    right. right. left. vm_compute. reflexivity.
  - apply (proj1 (validateRepositoryName_rejects_and_idempotent "a b")).
    right. left. vm_compute. reflexivity.
Defined.


End ValidatorFacts.

(** ** The error mapping *)

Module ErrorsFacts.
Import Js Errors Props.

Lemma toString_Some v s : ToString v = Some s -> toString v = Return s.
Proof. unfold toString. intros ->. reflexivity. Qed.

Lemma new_GitHubError_Some c m s st r :
  ToString m = Some s -> new_GitHubError c m st r = Return (mkGitHubError c s st r).
Proof. intros H. unfold new_GitHubError. rewrite (toString_Some _ _ H). reflexivity. Qed.

(** A value absent or falsy gives way to the default of [||]. *)
Lemma or_else_falsy a b : truthy a = false -> or_else a b = b.
Proof. unfold or_else. destruct a; [intros ->|]; reflexivity. Qed.

Lemma or_else_truthy v b : truthy (Some v) = true -> or_else (Some v) b = v.
Proof. unfold or_else. intros ->. reflexivity. Qed.

(** The clock matters only to a 429 whose [reset_at] is falsy: on any
    other input the result is the same at every reading. *)
Lemma createGitHubError_clock Date_parse now now' status body :
  (status =? 429) && negb (truthy (get (Some body) "reset_at")) = false ->
  createGitHubError Date_parse now status body
  = createGitHubError Date_parse now' status body.
Proof.
  intros H. unfold createGitHubError.
  repeat match goal with
         | |- context [if ?a =? ?b then _ else _] =>
             destruct (a =? b) eqn:?; [reflexivity|]
         end.
  destruct (status =? 429) eqn:E; [|reflexivity].
  cbn [andb] in H. apply negb_false_iff in H.
  destruct (get (Some body) "reset_at") as [v|] eqn:Ev; [|discriminate].
  unfold or_else. rewrite H. reflexivity.
Qed.

Lemma createGitHubError_429 Date_parse now body :
  createGitHubError Date_parse now 429 body =
    bind (new_Date Date_parse
            (or_else (get (Some body) "reset_at") (JNum (now + 60000))))
         (new_GitHubRateLimitError (get (Some body) "message")).
Proof. reflexivity. Qed.

Lemma createGitHubError_unmapped Date_parse now status body :
  unmapped status ->
  createGitHubError Date_parse now status body =
    new_GitHubError Generic (or_else (get (Some body) "message") (JStr "GitHub API error"))
                    status (Body body).
Proof.
  intros (H1 & H2 & H3 & H4 & H5 & H6). unfold createGitHubError.
  repeat match goal with
         | |- context [?a =? ?b] => destruct (Z.eqb_spec a b); [lia|]
         end.
  reflexivity.
Qed.

(** C1, as the code has it.  [createGitHubError] is a function of the
    clock reading, the status and the body.  Whenever the message it
    passes on converts to a string: status 404 yields a ResourceNotFound
    error; status 429 yields a RateLimit error when the reset value is a
    valid date, the reset time being now + 60 seconds when [reset_at] is
    absent or falsy and the date of [reset_at] when it is truthy; and
    every status outside 401, 403, 404, 409, 422 and 429 yields a Generic
    error carrying the status and the body unchanged. *)
Theorem createGitHubError_mapping
        (Date_parse : string -> option Z) (now status : Z) (body : Json) :
  let msg := get (Some body) "message" in
  let reset_at := get (Some body) "reset_at" in
  (forall r, ToString (or_else msg (JStr "Resource")) = Some r ->
     createGitHubError Date_parse now 404 body =
       Return (mkGitHubError ResourceNotFound ("Resource not found: " ++ r) 404
                 (Body (JObj [("message", JStr (r ++ " not found"))]))))
  /\ (forall m, ToString (default msg "Rate limit exceeded") = Some m ->
        truthy reset_at = false ->
        Z.abs (now + 60000) <= 8640000000000000 ->
        createGitHubError Date_parse now 429 body =
          Return (mkGitHubError (RateLimit (now + 60000)) m 429
                    (MessageResetAt (default msg "Rate limit exceeded") (now + 60000))))
  /\ (forall m v t, ToString (default msg "Rate limit exceeded") = Some m ->
        reset_at = Some v -> truthy (Some v) = true ->
        new_Date Date_parse v = Return (Some t) ->
        createGitHubError Date_parse now 429 body =
          Return (mkGitHubError (RateLimit t) m 429
                    (MessageResetAt (default msg "Rate limit exceeded") t)))
  /\ (forall m, unmapped status ->
        ToString (or_else msg (JStr "GitHub API error")) = Some m ->
        createGitHubError Date_parse now status body =
          Return (mkGitHubError Generic m status (Body body))).
Proof.
  intros msg reset_at. repeat split.
  - intros r Hr. cbn -[ToString or_else get]. fold msg.
    unfold new_GitHubResourceNotFoundError.
    rewrite (toString_Some _ _ Hr). reflexivity.
  - intros m Hm Hf Hb. rewrite createGitHubError_429. fold msg reset_at.
    rewrite (or_else_falsy _ _ Hf). unfold new_Date, TimeClip.
    apply Z.leb_le in Hb. rewrite Hb. cbn [bind].
    unfold new_GitHubRateLimitError. cbn [valid_time bind].
    now apply new_GitHubError_Some.
  - intros m v t Hm Hv Ht Hd. rewrite createGitHubError_429. fold msg reset_at.
    rewrite Hv, (or_else_truthy _ _ Ht), Hd. cbn [bind].
    unfold new_GitHubRateLimitError. cbn [valid_time bind].
    now apply new_GitHubError_Some.
  - intros m Hu Hm. rewrite (createGitHubError_unmapped _ _ _ _ Hu). fold msg.
    now apply new_GitHubError_Some.
Qed.

Lemma createGitHubError_mapping_witness :
  createGitHubError Sample.Date_parse 1700000000000 404
    (JObj [("message", JStr "Not Found")]) =
    Return (mkGitHubError ResourceNotFound "Resource not found: Not Found" 404
              (Body (JObj [("message", JStr "Not Found not found")])))
  /\ createGitHubError Sample.Date_parse 1700000000000 429 (JObj []) =
       Return (mkGitHubError (RateLimit 1700000060000) "Rate limit exceeded" 429
                 (MessageResetAt (JStr "Rate limit exceeded") 1700000060000))
  /\ createGitHubError Sample.Date_parse 1700000000000 429
       (JObj [("reset_at", JStr "2024-01-01T00:00:00.000Z")]) =
       Return (mkGitHubError (RateLimit 1704067200000) "Rate limit exceeded" 429
                 (MessageResetAt (JStr "Rate limit exceeded") 1704067200000))
  /\ createGitHubError Sample.Date_parse 1700000000000 502 (JStr "Bad Gateway") =
       Return (mkGitHubError Generic "GitHub API error" 502 (Body (JStr "Bad Gateway"))).
Proof.
  split; [|split; [|split]].
  - apply (proj1 (createGitHubError_mapping Sample.Date_parse 1700000000000 404
                    (JObj [("message", JStr "Not Found")]))).
    reflexivity.
  - apply (proj1 (proj2 (createGitHubError_mapping Sample.Date_parse 1700000000000 429
                           (JObj [])))); [reflexivity | reflexivity | vm_compute; discriminate].
  - apply (proj1 (proj2 (proj2
             (createGitHubError_mapping Sample.Date_parse 1700000000000 429
                (JObj [("reset_at", JStr "2024-01-01T00:00:00.000Z")]))))
             "Rate limit exceeded" (JStr "2024-01-01T00:00:00.000Z"));
      try reflexivity.
  - apply (proj2 (proj2 (proj2
             (createGitHubError_mapping Sample.Date_parse 1700000000000 502
                (JStr "Bad Gateway"))))); [|reflexivity].
    unfold unmapped. repeat split; discriminate.
Defined.

(** C1 as stated fails at status 429: a [reset_at] that is not a valid
    date makes the constructor throw a [RangeError], so no RateLimit error
    is returned; and a [reset_at] that is present but falsy is not taken,
    the reset time being now + 60 seconds. *)
Lemma createGitHubError_429_counterexample :
  createGitHubError Sample.Date_parse 1700000000000 429
    (JObj [("reset_at", JNum 10000000000000000)]) =
    Throw (RangeError "Invalid time value")
  /\ createGitHubError Sample.Date_parse 1700000000000 429
       (JObj [("reset_at", JNum 0)]) =
       Return (mkGitHubError (RateLimit 1700000060000) "Rate limit exceeded" 429
                 (MessageResetAt (JStr "Rate limit exceeded") 1700000060000)).
Proof. split; reflexivity. Qed.

End ErrorsFacts.

(** ** The request gateway *)

Module GatewayFacts.
Import Errors Gateway Props.

Lemma roll_window_rolled env s : roll_window env s = (Return tt, rolled env s).
Proof.
  unfold roll_window, rolled, bind, Date_now, get_requestCountResetTime.
  cbn [requestCountResetTime].
  destruct (clock env (clock_reads s) >? requestCountResetTime s); reflexivity.
Qed.

Lemma admit_request_open env s :
  requestCount s < MAX_REQUESTS_PER_MINUTE ->
  admit_request env s = (Return tt, admitted s).
Proof.
  intros H. unfold admit_request, bind, get_requestCount.
  destruct (Z.geb_spec (requestCount s) MAX_REQUESTS_PER_MINUTE); [lia | reflexivity].
Qed.

Lemma admit_request_closed env s :
  MAX_REQUESTS_PER_MINUTE <= requestCount s ->
  admit_request env s =
    (Throw (Plain (Error (rate_limit_message
                            (requestCountResetTime s - clock env (clock_reads s))))),
     refused s).
Proof.
  intros H. unfold admit_request, bind, get_requestCount.
  destruct (Z.geb_spec (requestCount s) MAX_REQUESTS_PER_MINUTE); [reflexivity | lia].
Qed.

(** [githubRequest] by cases: refused at the ceiling, stopped at the URL
    check after the admission, or sent. *)
Lemma githubRequest_closed env url options s :
  MAX_REQUESTS_PER_MINUTE <= requestCount (rolled env s) ->
  githubRequest env url options s =
    (Throw (Plain (Error (rate_limit_message
                            (requestCountResetTime (rolled env s)
                             - clock env (clock_reads (rolled env s)))))),
     refused (rolled env s)).
Proof.
  intros H. unfold githubRequest, bind at 1. rewrite roll_window_rolled.
  unfold bind. rewrite (admit_request_closed _ _ H). reflexivity.
Qed.

Lemma githubRequest_off_host env url options s :
  requestCount (rolled env s) < MAX_REQUESTS_PER_MINUTE ->
  on_trusted_host url = false ->
  githubRequest env url options s = (Throw url_error, admitted (rolled env s)).
Proof.
  intros H Hu. unfold githubRequest, bind at 1. rewrite roll_window_rolled.
  unfold bind. rewrite (admit_request_open _ _ H).
  unfold on_trusted_host in Hu. rewrite Hu. reflexivity.
Qed.

Lemma githubRequest_sent env url options s :
  requestCount (rolled env s) < MAX_REQUESTS_PER_MINUTE ->
  on_trusted_host url = true ->
  githubRequest env url options s = send env url options (admitted (rolled env s)).
Proof.
  intros H Hu. unfold githubRequest, bind at 1. rewrite roll_window_rolled.
  unfold bind. rewrite (admit_request_open _ _ H).
  unfold on_trusted_host in Hu. rewrite Hu. reflexivity.
Qed.

Lemma count_checked_rolled env s : count_checked env s = requestCount (rolled env s).
Proof. unfold count_checked. rewrite roll_window_rolled. reflexivity. Qed.

(** The [catch] block turns whatever was thrown into a [GitHubError] and
    leaves the state alone. *)
Lemma on_error_throws {A} timeout error s :
  exists g, @on_error A timeout error s = (Throw (GitHub g), s).
Proof.
  destruct error as [e|g]; cbn [on_error]; [|eexists; reflexivity].
  destruct (String.eqb (err_name e) "AbortError"); [eexists; reflexivity|].
  destruct (err_cause_code e) as [c|]; [|eexists; reflexivity].
  destruct (String.eqb c "ENOTFOUND" || String.eqb c "ECONNREFUSED");
    eexists; reflexivity.
Qed.

(** Building the error can read the clock; it touches neither the window
    nor the log. *)
Lemma createGitHubError_now_keeps env status response s :
  let r := createGitHubError_now env status response s in
  requestCount (snd r) = requestCount s
  /\ requestCountResetTime (snd r) = requestCountResetTime s
  /\ fetched (snd r) = fetched s.
Proof.
  unfold createGitHubError_now.
  destruct ((status =? 429) && negb (Js.truthy (Js.get (Some response) "reset_at"))).
  - unfold Gateway.bind, Date_now.
    destruct (createGitHubError (Date_parse env) (clock env (clock_reads s)) status response);
      cbn; auto.
  - destruct (createGitHubError (Date_parse env) 0 status response); cbn; auto.
Qed.

(** Whatever the [catch] block receives, the window stays as it is and a
    [GitHubError] is what leaves it. *)
Lemma caught {A} timeout error (s st : State) (sent : list FetchCall) :
  requestCount st = requestCount s ->
  requestCountResetTime st = requestCountResetTime s ->
  fetched st = (fetched s ++ sent)%list ->
  exists r s', @on_error A timeout error st = (r, s')
  /\ requestCount s' = requestCount s
  /\ requestCountResetTime s' = requestCountResetTime s
  /\ fetched s' = (fetched s ++ sent)%list
  /\ (forall e, r = Throw e -> exists g, e = GitHub g).
Proof.
  intros H1 H2 H3. destruct (@on_error_throws A timeout error st) as [g ->].
  do 2 eexists. split; [reflexivity|]. repeat split; auto.
  intros ? [= <-]. eauto.
Qed.

(** Sending a request records exactly one call of [fetch], leaves the
    counter and the reset time as they are, and fails only with a
    [GitHubError]. *)
Lemma send_spec env url options s :
  exists r s', send env url options s = (r, s')
  /\ requestCount s' = requestCount s
  /\ requestCountResetTime s' = requestCountResetTime s
  /\ fetched s' = (fetched s ++ [fetch_call env url options])%list
  /\ (forall e, r = Throw e -> exists g, e = GitHub g).
Proof.
  cbv beta iota zeta delta [send try_catch Gateway.bind do_fetch].
  set (call := fetch_call env url options).
  destruct (fetch env (List.length (fetched s)) call) as [response|e];
    [|apply caught; reflexivity].
  destruct (parseResponseBody response) as [responseBody|e]; cbn [lift ret throw];
    [|apply caught; reflexivity].
  destruct (ok response); cbn [negb].
  - do 2 eexists. split; [reflexivity|]. cbn. repeat split; auto. discriminate.
  - match goal with
    | |- context [createGitHubError_now ?e ?st ?b ?s0] =>
        pose proof (createGitHubError_now_keeps e st b s0) as Hk;
        destruct (createGitHubError_now e st b s0) as [[g|e'] s1]
    end; cbn in Hk; destruct Hk as (K1 & K2 & K3); apply caught; assumption.
Qed.

Lemma rolled_in_window env s :
  clock env (clock_reads s) <= requestCountResetTime s ->
  requestCount (rolled env s) = requestCount s
  /\ requestCountResetTime (rolled env s) = requestCountResetTime s
  /\ clock_reads (rolled env s) = S (clock_reads s)
  /\ fetched (rolled env s) = fetched s.
Proof.
  intros H. unfold rolled.
  destruct (Z.gtb_spec (clock env (clock_reads s)) (requestCountResetTime s)); [lia|].
  cbn. auto.
Qed.

Lemma rolled_elapsed env s :
  clock env (clock_reads s) > requestCountResetTime s ->
  rolled env s = mkState 0 (clock env (S (clock_reads s)) + 60000)
                         (S (S (clock_reads s))) (fetched s).
Proof.
  intros H. unfold rolled.
  destruct (Z.gtb_spec (clock env (clock_reads s)) (requestCountResetTime s)); [reflexivity|lia].
Qed.

(** An admitted call leaves the counter one higher and the reset time as
    the window check left it, whatever becomes of the request. *)
Lemma after_admitted env url options s :
  requestCount (rolled env s) < MAX_REQUESTS_PER_MINUTE ->
  requestCount (after env url options s) = requestCount (rolled env s) + 1
  /\ requestCountResetTime (after env url options s) = requestCountResetTime (rolled env s).
Proof.
  intros H. unfold after.
  destruct (on_trusted_host url) eqn:Hu.
  - rewrite (githubRequest_sent _ _ _ _ H Hu).
    destruct (send_spec env url options (admitted (rolled env s)))
      as (r & s' & -> & H1 & H2 & _). cbn in *. auto.
  - rewrite (githubRequest_off_host _ _ _ _ H Hu). cbn. auto.
Qed.

Lemma after_all_in_window env calls : forall s,
  (forall k, clock env k <= requestCountResetTime s) ->
  requestCount s + Z.of_nat (List.length calls) <= MAX_REQUESTS_PER_MINUTE ->
  requestCount (after_all env calls s) = requestCount s + Z.of_nat (List.length calls)
  /\ requestCountResetTime (after_all env calls s) = requestCountResetTime s.
Proof.
  induction calls as [|[url options] calls IH]; intros s Hc Hn.
  - cbn. split; [lia | reflexivity].
  - cbn [after_all fold_left fst snd].
    destruct (rolled_in_window env s (Hc _)) as (R1 & R2 & _).
    cbn [List.length] in Hn.
    destruct (after_admitted env url options s) as [A1 A2]; [lia|].
    rewrite R1 in A1. rewrite R2 in A2.
    destruct (IH (after env url options s)) as [I1 I2].
    + intros k. rewrite A2. apply Hc.
    + lia.
    + fold (after_all env calls (after env url options s)).
      rewrite I1, I2, A1, A2. cbn [List.length]. split; [lia | reflexivity].
Qed.

Lemma ceil_seconds_bounds w :
  1000 * (ceil_seconds w - 1) < w <= 1000 * ceil_seconds w.
Proof.
  unfold ceil_seconds.
  pose proof (Z.div_mod (- w) 1000 ltac:(lia)).
  pose proof (Z.mod_pos_bound (- w) 1000 ltac:(lia)). lia.
Qed.

(** C2.  In a window that is still open, sixty calls from a counter at
    zero are all admitted, and the next call fails locally with the error
    [Rate limit exceeded. Please try again in N seconds.], where [N] is the
    time left until the reset, in milliseconds, divided by 1000 and rounded
    up to a whole number; it calls [fetch] no more and leaves the counter
    at sixty.  Once a reading of the clock is past the reset time, the next
    call sets the counter to zero and the reset time 60 seconds after the
    clock, and is itself admitted. *)
Theorem rate_window_quota (env : Env) (s : State) :
  (requestCount s = 0 ->
   (forall k, clock env k <= requestCountResetTime s) ->
   forall calls, List.length calls = 60%nat ->
     let s60 := after_all env calls s in
     requestCount s60 = 60
     /\ forall url options,
         let waitTime := requestCountResetTime s - clock env (S (clock_reads s60)) in
         exists seconds,
           1000 * (seconds - 1) < waitTime <= 1000 * seconds
           /\ fst (githubRequest env url options s60)
              = Throw (Plain (Error ("Rate limit exceeded. Please try again in "
                                       ++ Js.Number_toString seconds ++ " seconds.")))
           /\ fetched (snd (githubRequest env url options s60)) = fetched s60
           /\ requestCount (snd (githubRequest env url options s60)) = 60)
  /\ (clock env (clock_reads s) > requestCountResetTime s ->
      requestCount (snd (roll_window env s)) = 0
      /\ requestCountResetTime (snd (roll_window env s))
         = clock env (S (clock_reads s)) + 60000
      /\ forall url options,
          requestCount (after env url options s) = 1
          /\ requestCountResetTime (after env url options s)
             = clock env (S (clock_reads s)) + 60000).
Proof.
  split.
  - intros H0 Hc calls Hlen s60.
    destruct (after_all_in_window env calls s Hc) as [C1 C2].
    { rewrite H0, Hlen. unfold MAX_REQUESTS_PER_MINUTE. lia. }
    fold s60 in C1, C2. rewrite H0, Hlen in C1.
    split; [exact C1|]. intros url options waitTime.
    assert (Hin : clock env (clock_reads s60) <= requestCountResetTime s60)
      by (rewrite C2; apply Hc).
    destruct (rolled_in_window env s60 Hin) as (R1 & R2 & R3 & R4).
    exists (ceil_seconds waitTime).
    rewrite githubRequest_closed
      by (rewrite R1, C1; unfold MAX_REQUESTS_PER_MINUTE; lia).
    cbn [fst snd refused fetched requestCount]. rewrite R1, R2, R3, R4, C1, C2.
    split; [apply ceil_seconds_bounds|]. repeat split.
  - intros He. rewrite roll_window_rolled. cbn [snd].
    rewrite (rolled_elapsed _ _ He). cbn [requestCount requestCountResetTime].
    repeat split.
    + destruct (after_admitted env url options s) as [A1 _].
      * rewrite (rolled_elapsed _ _ He). cbn. unfold MAX_REQUESTS_PER_MINUTE. lia.
      * rewrite A1, (rolled_elapsed _ _ He). reflexivity.
    + destruct (after_admitted env url options s) as [_ A2].
      * rewrite (rolled_elapsed _ _ He). cbn. unfold MAX_REQUESTS_PER_MINUTE. lia.
      * rewrite A2, (rolled_elapsed _ _ He). reflexivity.
Qed.

Lemma rate_window_quota_witness :
  requestCount (after_all Sample.still Sample.sixty_calls Sample.start) = 60
  /\ fst (githubRequest Sample.still "https://api.github.com/user" no_options
            (after_all Sample.still Sample.sixty_calls Sample.start)) =
       Throw (Plain (Error "Rate limit exceeded. Please try again in 60 seconds."))
  /\ requestCount (after Sample.env "https://api.github.com/user" no_options Sample.elapsed) = 1
  /\ requestCountResetTime
       (after Sample.env "https://api.github.com/user" no_options Sample.elapsed)
     = 1700000060001.
Proof.
  destruct (rate_window_quota Sample.still Sample.start) as [HA _].
  destruct (rate_window_quota Sample.env Sample.elapsed) as [_ HB].
  specialize (HA eq_refl).
  assert (Hc : forall k : nat, clock Sample.still k <= requestCountResetTime Sample.start)
    by (intros k; vm_compute; discriminate).
  destruct (HA Hc Sample.sixty_calls eq_refl) as [H60 Hcall].
  destruct (Hcall "https://api.github.com/user" no_options) as (seconds & Hb & Hthrow & _).
  change (1000 * (seconds - 1) < 60000 <= 1000 * seconds) in Hb.
  assert (Hs : seconds = 60) by lia. rewrite Hs in Hthrow.
  assert (He : clock Sample.env (clock_reads Sample.elapsed)
               > requestCountResetTime Sample.elapsed) by (vm_compute; reflexivity).
  destruct (HB He) as (_ & _ & Hnext).
  destruct (Hnext "https://api.github.com/user" no_options) as [N1 N2].
  split; [exact H60 | split; [exact Hthrow | split; [exact N1 | exact N2]]].
Defined.

(** C10.  A call that passes the quota check has raised the counter by
    exactly one when the URL check runs: a call stopped there for a URL off
    the trusted host, and a call whose request fails, each leave the
    counter one above what the check saw; and no call leaves it lower than
    the check saw it. *)
Theorem githubRequest_consumes_quota (env : Env) (url : string)
        (options : RequestOptions) (s : State) :
  let checked := count_checked env s in
  let r := githubRequest env url options s in
  (checked < 60 ->
   (roll_window env ;; admit_request env)%gateway s = (Return tt, admitted (rolled env s))
   /\ requestCount (admitted (rolled env s)) = checked + 1
   /\ requestCount (snd r) = checked + 1)
  /\ (checked < 60 -> on_trusted_host url = false ->
      fst r = Throw url_error /\ requestCount (snd r) = checked + 1
      /\ fetched (snd r) = fetched s)
  /\ (checked < 60 -> on_trusted_host url = true ->
      forall e, fst r = Throw e ->
        (exists g, e = GitHub g) /\ requestCount (snd r) = checked + 1)
  /\ checked <= requestCount (snd r).
Proof.
  intros checked r. subst checked r. rewrite count_checked_rolled.
  assert (Hadm : requestCount (rolled env s) < 60 ->
                 requestCount (snd (githubRequest env url options s))
                 = requestCount (rolled env s) + 1).
  { intros H. apply (after_admitted env url options s H). }
  repeat split.
  - unfold Gateway.bind. rewrite roll_window_rolled.
    now apply admit_request_open.
  - now apply Hadm.
  - rewrite (githubRequest_off_host _ _ _ _ H H0). reflexivity.
  - now apply Hadm.
  - rewrite (githubRequest_off_host _ _ _ _ H H0). cbn.
    unfold rolled. destruct (_ >? _); reflexivity.
  - rewrite (githubRequest_sent _ _ _ _ H H0) in H1.
    destruct (send_spec env url options (admitted (rolled env s)))
      as (r & s' & E & _ & _ & _ & Hg). rewrite E in H1. now apply Hg.
  - now apply Hadm.
  - destruct (Z.lt_ge_cases (requestCount (rolled env s)) 60) as [H|H].
    + rewrite (Hadm H). lia.
    + rewrite (githubRequest_closed _ _ _ _ H). cbn. lia.
Qed.

Lemma githubRequest_consumes_quota_witness :
  githubRequest Sample.env "http://evil.example/" no_options Sample.start
  = (Throw url_error, mkState 1 1700000060000 1 [])
  /\ requestCount (after Sample.env "https://api.github.com/user" no_options Sample.start) = 1.
Proof.
  pose proof (githubRequest_consumes_quota Sample.env "http://evil.example/"
                no_options Sample.start) as (_ & Hoff & _).
  pose proof (githubRequest_consumes_quota Sample.env "https://api.github.com/user"
                no_options Sample.start) as (Hon & _).
  split.
  - destruct Hoff as (H1 & H2 & H3); [reflexivity | reflexivity |].
    reflexivity.
  - destruct Hon as (_ & _ & H); [reflexivity | exact H].
Defined.

(** C3, as the code has it.  For a URL off the trusted host,
    [githubRequest] calls [fetch] never and fails locally: with the error
    of the URL check when the call passes the quota check, with the
    rate-limit error when the counter is at the ceiling.  For a URL on the
    trusted host that passes the quota check, the error of the URL check is
    not raised. *)
Theorem githubRequest_url_check (env : Env) (url : string)
        (options : RequestOptions) (s : State) :
  let r := githubRequest env url options s in
  (on_trusted_host url = false ->
   fetched (snd r) = fetched s
   /\ (count_checked env s < 60 -> fst r = Throw url_error)
   /\ (60 <= count_checked env s -> exists e, fst r = Throw e /\ is_rate_limit_error e))
  /\ (on_trusted_host url = true -> count_checked env s < 60 ->
      fst r <> Throw url_error).
Proof.
  intros r. subst r. rewrite count_checked_rolled. split.
  - intros Hu.
    assert (Hf : fetched (rolled env s) = fetched s)
      by (unfold rolled; destruct (_ >? _); reflexivity).
    repeat split.
    + destruct (Z.lt_ge_cases (requestCount (rolled env s)) 60) as [H|H].
      * rewrite (githubRequest_off_host _ _ _ _ H Hu). exact Hf.
      * rewrite (githubRequest_closed _ _ _ _ H). exact Hf.
    + intros H. rewrite (githubRequest_off_host _ _ _ _ H Hu). reflexivity.
    + intros H. rewrite (githubRequest_closed _ _ _ _ H).
      eexists. split; [reflexivity|]. eexists. reflexivity.
  - intros Hu H. rewrite (githubRequest_sent _ _ _ _ H Hu).
    destruct (send_spec env url options (admitted (rolled env s)))
      as (r & s' & -> & _ & _ & _ & Hg).
    cbn. intros E. destruct (Hg _ E) as [g Eg]. discriminate.
Qed.

Lemma githubRequest_url_check_witness :
  fst (githubRequest Sample.env "http://evil.example/" no_options Sample.start)
  = Throw url_error
  /\ fetched (snd (githubRequest Sample.env "http://evil.example/" no_options Sample.start))
     = []
  /\ fst (githubRequest Sample.env "https://api.github.com/user" no_options Sample.start)
     <> Throw url_error.
Proof.
  pose proof (githubRequest_url_check Sample.env "http://evil.example/"
                no_options Sample.start) as [Hoff _].
  pose proof (githubRequest_url_check Sample.env "https://api.github.com/user"
                no_options Sample.start) as [_ Hon].
  destruct (Hoff eq_refl) as (H1 & H2 & _).
  split; [apply H2; reflexivity | split; [exact H1 | apply Hon; reflexivity]].
Defined.

(** C3 as stated fails with the counter at the ceiling: the quota check
    comes first, and the call off the trusted host fails with the
    rate-limit error, not with the error of the URL check. *)
Lemma githubRequest_off_host_counterexample :
  on_trusted_host "http://evil.example/" = false
  /\ fst (githubRequest Sample.env "http://evil.example/" no_options Sample.exhausted)
     = Throw (Plain (Error "Rate limit exceeded. Please try again in 60 seconds."))
  /\ fst (githubRequest Sample.env "http://evil.example/" no_options Sample.exhausted)
     <> Throw url_error.
Proof. repeat split; try reflexivity. discriminate. Qed.

End GatewayFacts.

(** ** Query construction *)

Module UrlFacts.
Import Url Props Terms.

Lemma serialize_truthy l : l <> [] -> JsString.truthy (serialize l) = true.
Proof.
  destruct l as [|[k v] l]; [contradiction|]. intros _.
  unfold serialize. cbn [map fst snd String.concat].
  destruct (map _ l); destruct (encode k); reflexivity.
Qed.

Lemma append_query u k v :
  query (append u k v) = Some (serialize (searchParams u ++ [(k, v)])%list).
Proof.
  unfold append. cbn [query]. rewrite serialize_truthy; [reflexivity|].
  destruct (searchParams u); discriminate.
Qed.

Lemma fold_appendParam params : forall u,
  origin_path (fold_left appendParam params u) = origin_path u
  /\ fragment (fold_left appendParam params u) = fragment u
  /\ searchParams (fold_left appendParam params u)
     = (searchParams u ++ defined_pairs params)%list
  /\ query (fold_left appendParam params u)
     = match defined_pairs params with
       | [] => query u
       | _ => Some (serialize (searchParams u ++ defined_pairs params)%list)
       end.
Proof.
  induction params as [|[k [v|]] params IH]; intros u; cbn [fold_left defined_pairs].
  - rewrite app_nil_r. auto.
  - destruct (IH (appendParam u (k, Some v))) as (I1 & I2 & I3 & I4).
    rewrite I1, I2, I3, I4.
    unfold appendParam. cbn [snd fst]. rewrite append_query.
    cbn [append origin_path fragment searchParams].
    rewrite <- app_assoc. cbn [app].
    repeat split.
    destruct (defined_pairs params); reflexivity.
  - apply IH.
Qed.

Lemma buildUrl_parsed URL_parse baseUrl params url :
  URL_parse baseUrl = Some url ->
  buildUrl URL_parse baseUrl params = Return (toString (fold_left appendParam params url)).
Proof. intros H. unfold buildUrl. now rewrite H. Qed.

Lemma defined_pairs_In params k v :
  In (k, v) (defined_pairs params) <->
  exists x, In (k, Some x) params /\ v = Scalar_toString x.
Proof.
  induction params as [|[k' [x|]] params IH]; cbn [defined_pairs In].
  - split; [contradiction | intros (x & [] & _)].
  - rewrite IH. split.
    + intros [[= <- <-] | (y & Hy & ->)]; eauto.
    + intros (y & [[= <- <-] | Hy] & ->); eauto.
  - rewrite IH. split.
    + intros (y & Hy & ->); eauto.
    + intros (y & [[=] | Hy] & ->); eauto.
Qed.

Lemma append_empty (s : string) : s ++ "" = s.
Proof. induction s as [|c s IH]; cbn; [reflexivity | now rewrite IH]. Qed.

Lemma toString_fold_appendParam params u :
  toString (fold_left appendParam params u) = with_query u (defined_pairs params).
Proof.
  destruct (fold_appendParam params u) as (F1 & F2 & _ & F4).
  unfold toString, with_query. rewrite F1, F2, F4.
  destruct (defined_pairs params); reflexivity.
Qed.

Lemma encodeByte_unreserved c :
  is_unreserved c = true -> (JsString.code c <? 128)%N = true /\ encodeByte (JsString.code c) = String c "".
Proof.
  intros H. unfold is_unreserved in H.
  destruct c as [[] [] [] [] [] [] [] []]; try discriminate H; split; reflexivity.
Qed.

Lemma encode_plain s : JsString.forallb is_unreserved s = true -> encode s = s.
Proof.
  induction s as [|c s IH]; cbn [JsString.forallb encode]; [reflexivity|].
  intros H. apply andb_prop in H as [Hc Hs].
  destruct (encodeByte_unreserved c Hc) as [H1 H2].
  unfold utf8. rewrite H1. cbn [map String.concat]. rewrite H2, (IH Hs). reflexivity.
Qed.

Lemma serialize_plain l :
  forallb plain_pair l = true -> serialize l = plain_query l.
Proof.
  intros H. unfold serialize, plain_query. f_equal.
  induction l as [|[k v] l IH]; [reflexivity|].
  cbn [forallb] in H. apply andb_prop in H as [Hkv Hl].
  apply andb_prop in Hkv as [Hk Hv]. cbn [fst snd] in Hk, Hv.
  cbn [map fst snd]. rewrite (encode_plain _ Hk), (encode_plain _ Hv), (IH Hl). reflexivity.
Qed.

(** C9.  For every base URL the engine parses and every record of
    parameters, [buildUrl] returns the text of the URL with exactly the
    pairs of the defined values appended to its query, in order, each value
    through [toString]; a key whose value is undefined contributes nothing,
    and a record with no defined value gives the URL back as it was.  Where
    nothing needs escaping the query reads [k1=v1&k2=v2...].  With
    [{a: 1, b: undefined}] on a base without a query the result is the base
    followed by [?a=1], with [{b: undefined}] the base itself, and a page of
    [1e21] is written [1e+21], its sign escaped. *)
Theorem buildUrl_appends_defined (URL_parse : string -> option URL)
        (baseUrl : string) (params : list (string * option Scalar)) (url : URL) :
  URL_parse baseUrl = Some url ->
  let pairs := defined_pairs params in
  buildUrl URL_parse baseUrl params = Return (with_query url pairs)
  /\ (forall k v, In (k, v) pairs <->
                  exists x, In (k, Some x) params /\ v = Scalar_toString x)
  /\ (forall k, (forall x, ~ In (k, Some x) params) -> ~ In k (keys pairs))
  /\ (Forall (fun entry => snd entry = None) params ->
      buildUrl URL_parse baseUrl params = Return (toString url))
  /\ (pairs <> [] -> forallb plain_pair (searchParams url ++ pairs) = true ->
      buildUrl URL_parse baseUrl params
      = Return (origin_path url ++ "?" ++ plain_query (searchParams url ++ pairs)
                  ++ match fragment url with Some f => "#" ++ f | None => "" end))
  /\ (url = mkURL baseUrl None [] None ->
      buildUrl URL_parse baseUrl [("a", Some (Num 1)); ("b", None)]
      = Return (baseUrl ++ "?a=1")
      /\ buildUrl URL_parse baseUrl [("b", None)] = Return baseUrl
      /\ buildUrl URL_parse baseUrl [("page", Some (Num (10 ^ 21)))]
         = Return (baseUrl ++ "?page=1e%2B21")).
Proof.
  intros Hp pairs.
  assert (Hb : forall q, buildUrl URL_parse baseUrl q = Return (with_query url (defined_pairs q))).
  { intros q. rewrite (buildUrl_parsed _ _ q _ Hp). now rewrite toString_fold_appendParam. }
  refine (conj (Hb params) (conj _ (conj _ (conj _ (conj _ _))))).
  - intros k v. apply defined_pairs_In.
  - intros k Hk Hin. unfold keys in Hin. apply in_map_iff in Hin as ([k' v] & E & Hin).
    cbn in E. subst k'. apply defined_pairs_In in Hin as (x & Hx & _). exact (Hk x Hx).
  - intros Hall. rewrite Hb. f_equal.
    assert (E : defined_pairs params = []).
    { clear -Hall. induction Hall as [|[k [v|]] l Hx _ IH]; cbn in *; [reflexivity|discriminate|exact IH]. }
    rewrite E. reflexivity.
  - intros Hne Hplain. rewrite Hb. fold pairs. unfold with_query.
    rewrite (serialize_plain _ Hplain). destruct pairs; [contradiction | reflexivity].
  - intros ->. rewrite !Hb. unfold with_query.
    cbn [defined_pairs origin_path query fragment searchParams app Scalar_toString].
    cbn [String.append]. rewrite !append_empty.
    repeat split; do 2 f_equal; vm_compute; reflexivity.
Qed.

Lemma buildUrl_appends_defined_witness :
  buildUrl Sample.URL_parse "https://api.github.com/x" [("a", Some (Num 1)); ("b", None)]
  = Return "https://api.github.com/x?a=1"
  /\ buildUrl Sample.URL_parse "https://api.github.com/x" [("b", None)]
     = Return "https://api.github.com/x"
  /\ buildUrl Sample.URL_parse "https://api.github.com/x"
              [("b", None); ("per page", Some (Str "a&b")); ("page", Some (Num 2))]
     = Return "https://api.github.com/x?per+page=a%26b&page=2".
Proof.
  destruct (buildUrl_appends_defined Sample.URL_parse "https://api.github.com/x"
              [("a", Some (Num 1)); ("b", None)]
              (mkURL "https://api.github.com/x" None [] None) eq_refl) as [H1 _].
  destruct (buildUrl_appends_defined Sample.URL_parse "https://api.github.com/x"
              [("b", None)]
              (mkURL "https://api.github.com/x" None [] None) eq_refl) as [H2 _].
  destruct (buildUrl_appends_defined Sample.URL_parse "https://api.github.com/x"
              [("b", None); ("per page", Some (Str "a&b")); ("page", Some (Num 2))]
              (mkURL "https://api.github.com/x" None [] None) eq_refl) as [H3 _].
  split; [exact H1 | split; [exact H2 | exact H3]].
Defined.

End UrlFacts.

(** ** The operations *)

Module OperationsFacts.
Import Errors Validator Gateway Url Operations Props Terms GatewayFacts UrlFacts.

Lemma lift_Return {A} (c : Completion JsError A) a s : c = Return a -> lift c s = (Return a, s).
Proof. intros ->. reflexivity. Qed.

Lemma lift_Throw {A} (c : Completion JsError A) e s :
  c = Throw e -> lift c s = (Throw (Plain e), s).
Proof. intros ->. reflexivity. Qed.

Lemma bind_lift_Return {A B} (c : Completion JsError A) (k : A -> M B) a s :
  c = Return a -> Gateway.bind (lift c) k s = k a s.
Proof. intros ->. reflexivity. Qed.

Lemma bind_lift_Throw {A B} (c : Completion JsError A) (k : A -> M B) e s :
  c = Throw e -> Gateway.bind (lift c) k s = (Throw (Plain e), s).
Proof. intros ->. reflexivity. Qed.

(** C8.  For every owner that fails owner validation, [getWorkflowRunJobs]
    fails with that input-validation error and leaves the state as it
    found it: the gateway is not entered, no call of [fetch] is made and the
    counter is not raised. *)
Theorem getWorkflowRunJobs_invalid_owner
        (JobsSchema_parse : Json -> Completion JsError Json) (env : Env)
        (owner repo : string) (runId : Z) (filter : option JobFilter)
        (page perPage : option Z) (s : State) (e : JsError) :
  validateOwnerName owner = Throw e ->
  getWorkflowRunJobs JobsSchema_parse env owner repo runId filter page perPage s
  = (Throw (Plain e), s).
Proof.
  intros H. unfold getWorkflowRunJobs. now apply bind_lift_Throw.
Qed.

Lemma getWorkflowRunJobs_invalid_owner_witness :
  getWorkflowRunJobs (fun j => Return j) Sample.env "My Org" "demo" 42 None None None
                     Sample.start
  = (Throw (Plain (Error "Owner name must start with a letter or number and can contain up to 39 characters")),
     Sample.start).
Proof.
  apply getWorkflowRunJobs_invalid_owner. vm_compute. reflexivity.
Defined.

Lemma listWorkflowRuns_pairs options :
  defined_pairs (listWorkflowRuns_params options) = expected_query options.
Proof.
  destruct options as [w a b e st c x cs p pp].
  unfold expected_query, query_parameters, listWorkflowRuns_params.
  cbn [flat_map parameter_value String.eqb Ascii.eqb Bool.eqb
       Operations.actor Operations.branch Operations.event Operations.status
       Operations.created Operations.excludePullRequests Operations.checkSuiteId
       Operations.page Operations.perPage].
  destruct a, b, e, st, c; cbn [option_map defined_pairs app Scalar_toString];
    repeat f_equal;
    destruct x as [[|]|]; cbn [option_map defined_pairs app Scalar_toString];
    repeat f_equal;
    destruct cs, p, pp; reflexivity.
Qed.

Lemma parameter_value_named options k v :
  parameter_value options k = Some v -> In k query_parameters.
Proof.
  unfold parameter_value, query_parameters.
  repeat match goal with
         | |- context [String.eqb k ?x] =>
             destruct (String.eqb_spec k x) as [->|_]; [cbn; tauto|]
         end.
  discriminate.
Qed.

Lemma expected_query_In options k v :
  In (k, v) (expected_query options) <-> parameter_value options k = Some v.
Proof.
  unfold expected_query. rewrite in_flat_map. split.
  - intros (k' & _ & H). destruct (parameter_value options k') eqn:E; cbn in H; [|contradiction].
    destruct H as [[= <- <-]|[]]. exact E.
  - intros H. exists k. split; [exact (parameter_value_named _ _ _ H)|].
    rewrite H. left. reflexivity.
Qed.

Lemma expected_query_keys options k :
  In k (keys (expected_query options)) <-> exists v, parameter_value options k = Some v.
Proof.
  unfold keys. rewrite in_map_iff. split.
  - intros ([k' v] & E & H). cbn in E. subst k'. exists v. now apply expected_query_In.
  - intros (v & H). exists (k, v). split; [reflexivity | now apply expected_query_In].
Qed.

(** C4, as the code has it.  [listWorkflowRuns] requests the URL of its
    base with, appended to the query, exactly one pair for each parameter
    that has a value, in the order [actor], [branch], [event], [status],
    [created], [exclude_pull_requests], [check_suite_id], [page],
    [per_page]: a parameter whose value is undefined contributes no pair,
    and with none set the URL is the base as it was;
    [exclude_pull_requests] is sent as the string [true] when
    [excludePullRequests] is true, and is left out when it is false or not
    set.  Where nothing needs escaping the query reads [k1=v1&k2=v2...]. *)
Theorem listWorkflowRuns_query
        (WorkflowRunsSchema_parse : Json -> Completion JsError Json) (env : Env)
        (owner repo : string) (options : ListWorkflowRunsOptions) (s : State)
        (o r : string) (url : URL) :
  validateOwnerName owner = Return o ->
  validateRepositoryName repo = Return r ->
  URL_parse env (listWorkflowRuns_base o r options) = Some url ->
  let pairs := expected_query options in
  listWorkflowRuns WorkflowRunsSchema_parse env owner repo options s
  = (response <- githubRequest env (with_query url pairs) no_options ;;
     lift (WorkflowRunsSchema_parse response))%gateway s
  /\ (forall k v, In (k, v) pairs <-> parameter_value options k = Some v)
  /\ (forall k, parameter_value options k = None -> ~ In k (keys pairs))
  /\ (excludePullRequests options = Some true ->
      In ("exclude_pull_requests", "true") pairs)
  /\ (excludePullRequests options <> Some true ->
      ~ In "exclude_pull_requests" (keys pairs))
  /\ (pairs = [] -> with_query url pairs = Url.toString url)
  /\ (pairs <> [] -> forallb plain_pair (searchParams url ++ pairs) = true ->
      with_query url pairs
      = origin_path url ++ "?" ++ plain_query (searchParams url ++ pairs)
          ++ match fragment url with Some f => "#" ++ f | None => "" end).
Proof.
  intros Ho Hr Hu pairs.
  refine (conj _ (conj _ (conj _ (conj _ (conj _ (conj _ _)))))).
  - unfold listWorkflowRuns.
    rewrite (bind_lift_Return _ _ _ _ Ho), (bind_lift_Return _ _ _ _ Hr).
    rewrite (bind_lift_Return _ _ _ _ (buildUrl_parsed _ _ _ _ Hu)).
    now rewrite toString_fold_appendParam, listWorkflowRuns_pairs.
  - apply expected_query_In.
  - intros k Hk Hin. apply expected_query_keys in Hin as (v & Hv). congruence.
  - intros He. apply expected_query_In. unfold parameter_value. cbn. now rewrite He.
  - intros He Hin. apply expected_query_keys in Hin as (v & Hv).
    unfold parameter_value in Hv. cbn in Hv.
    destruct (excludePullRequests options) as [[|]|]; [contradiction| |]; discriminate.
  - intros ->. reflexivity.
  - intros Hne Hp. unfold with_query. rewrite (serialize_plain _ Hp).
    destruct pairs; [contradiction | reflexivity].
Qed.

Lemma listWorkflowRuns_query_witness :
  listWorkflowRuns (fun j => Return j) Sample.env "octo" "demo"
                   (Sample.only_flag true) Sample.start
  = (response <- githubRequest Sample.env
                   "https://api.github.com/repos/octo/demo/actions/runs?exclude_pull_requests=true"
                   no_options ;;
     lift (Return response))%gateway Sample.start
  /\ listWorkflowRuns (fun j => Return j) Sample.env "octo" "demo"
                      (mkListWorkflowRunsOptions (Some (Str "ci.yml")) (Some "octocat") None None
                         None None (Some false) None (Some 2) None) Sample.start
     = (response <- githubRequest Sample.env
                      "https://api.github.com/repos/octo/demo/actions/workflows/ci.yml/runs?actor=octocat&page=2"
                      no_options ;;
        lift (Return response))%gateway Sample.start
  /\ listWorkflowRuns (fun j => Return j) Sample.env "octo" "demo"
                      Operations.no_list_options Sample.start
     = (response <- githubRequest Sample.env
                      "https://api.github.com/repos/octo/demo/actions/runs" no_options ;;
        lift (Return response))%gateway Sample.start
  /\ ~ In "exclude_pull_requests" (keys (expected_query Operations.no_list_options)).
Proof.
  destruct (listWorkflowRuns_query (fun j => Return j) Sample.env "octo" "demo"
              (Sample.only_flag true) Sample.start "octo" "demo"
              (mkURL "https://api.github.com/repos/octo/demo/actions/runs" None [] None)
              eq_refl eq_refl eq_refl) as (Ht & _).
  destruct (listWorkflowRuns_query (fun j => Return j) Sample.env "octo" "demo"
              (mkListWorkflowRunsOptions (Some (Str "ci.yml")) (Some "octocat") None None
                 None None (Some false) None (Some 2) None) Sample.start "octo" "demo"
              (mkURL "https://api.github.com/repos/octo/demo/actions/workflows/ci.yml/runs"
                     None [] None)
              eq_refl eq_refl eq_refl) as (Hw & _).
  destruct (listWorkflowRuns_query (fun j => Return j) Sample.env "octo" "demo"
              Operations.no_list_options Sample.start "octo" "demo"
              (mkURL "https://api.github.com/repos/octo/demo/actions/runs" None [] None)
              eq_refl eq_refl eq_refl) as (H0 & _ & _ & _ & Hn & _).
  split; [exact Ht | split; [exact Hw | split; [exact H0 | apply Hn; discriminate]]].
Defined.

(** C4 as stated fails for [excludePullRequests] set to false: the flag
    is left out of the URL, not sent as the string [false]. *)
Lemma listWorkflowRuns_false_flag_counterexample :
  map fetch_url
      (fetched (snd (listWorkflowRuns (fun j => Return j) Sample.env "octo" "demo"
                       (Sample.only_flag false) Sample.start)))
  = ["https://api.github.com/repos/octo/demo/actions/runs"]
  /\ defined_pairs (listWorkflowRuns_params (Sample.only_flag false)) = [].
Proof. split; reflexivity. Qed.

(** C5.  [triggerWorkflow] for octo/demo, workflow [ci.yml], ref [main]
    and no inputs calls [fetch] with the URL of the dispatches of the
    workflow, the method POST and the body [{ref: main}] in JSON, without
    an [inputs] member; when the call passes the quota check that request
    is the one sent, and when it is answered with a 2xx status and a
    readable body the operation returns the acknowledgement
    [{success: true, message: Workflow ci.yml triggered on main}]. *)
Theorem triggerWorkflow_scenario (env : Env) (s : State) :
  let url := "https://api.github.com/repos/octo/demo/actions/workflows/ci.yml/dispatches" in
  let call := fetch_call env url
                (mkRequestOptions (Some "POST") (Some (JObj [("ref", JStr "main")])) [] None) in
  let run := triggerWorkflow env "octo" "demo" (Str "ci.yml") "main" None s in
  (fetch_url call = url
   /\ fetch_method call = "POST"
   /\ fetch_body call
      = Some ("{" ++ JSON.dquote ++ "ref" ++ JSON.dquote ++ ":"
                  ++ JSON.dquote ++ "main" ++ JSON.dquote ++ "}"))
  /\ (count_checked env s < 60 ->
      fetched (snd run) = (fetched s ++ [call])%list
      /\ forall response responseBody,
          fetch env (List.length (fetched s)) call = Return response ->
          ok response = true ->
          parseResponseBody response = Return responseBody ->
          fst run = Return (JObj [("success", JBool true);
                                  ("message", JStr "Workflow ci.yml triggered on main")])).
Proof.
  intros url call run. split; [repeat split|].
  intros Hq. rewrite count_checked_rolled in Hq.
  assert (Hrun : run = ((githubRequest env url
                          (mkRequestOptions (Some "POST")
                             (Some (JObj [("ref", JStr "main")])) [] None) ;;
                         ret (JObj [("success", JBool true);
                                    ("message", JStr "Workflow ci.yml triggered on main")]))
                        %gateway s)) by reflexivity.
  rewrite Hrun. unfold Gateway.bind at 1 2.
  rewrite (githubRequest_sent env url _ s Hq eq_refl).
  split.
  - destruct (send_spec env url
                (mkRequestOptions (Some "POST") (Some (JObj [("ref", JStr "main")])) [] None)
                (admitted (rolled env s))) as (r & s' & -> & _ & _ & Hf & _).
    assert (Hs : fetched s' = (fetched s ++ [call])%list).
    { rewrite Hf. cbn [admitted fetched]. unfold rolled.
      destruct (_ >? _); reflexivity. }
    destruct r; cbn; exact Hs.
  - intros response responseBody Hfetch Hok Hbody.
    assert (Hlen : fetched (admitted (rolled env s)) = fetched s)
      by (cbn [admitted fetched]; unfold rolled; destruct (_ >? _); reflexivity).
    cbv beta iota zeta delta [send try_catch Gateway.bind do_fetch].
    rewrite Hlen. fold url. fold call. rewrite Hfetch, Hbody. cbn [lift ret].
    rewrite Hok. reflexivity.
Qed.

Lemma triggerWorkflow_scenario_witness :
  fst (triggerWorkflow Sample.env "octo" "demo" (Str "ci.yml") "main" None Sample.start)
  = Return (JObj [("success", JBool true);
                  ("message", JStr "Workflow ci.yml triggered on main")])
  /\ fetched (snd (triggerWorkflow Sample.env "octo" "demo" (Str "ci.yml") "main" None
                     Sample.start))
     = [mkFetchCall
          "https://api.github.com/repos/octo/demo/actions/workflows/ci.yml/dispatches"
          "POST"
          [("Accept", "application/vnd.github.v3+json");
           ("Content-Type", "application/json");
           ("User-Agent", "github-actions-mcp/v1.0.0 node")]
          (Some ("{" ++ JSON.dquote ++ "ref" ++ JSON.dquote ++ ":"
                     ++ JSON.dquote ++ "main" ++ JSON.dquote ++ "}"))
          30000].
Proof.
  destruct (triggerWorkflow_scenario Sample.env Sample.start) as [_ H].
  destruct H as [Hlog Hok]; [reflexivity|].
  split; [|exact Hlog].
  apply (Hok Sample.no_content (JStr "")); reflexivity.
Defined.

End OperationsFacts.

(** ** More on the error mapping *)

Module ErrorsMore.
Import Js Errors Props Terms ErrorsFacts.

Lemma new_GitHubError_Return c m st r e :
  new_GitHubError c m st r = Return e ->
  class e = c /\ status e = st /\ response e = r /\ ToString m = Some (message e).
Proof.
  unfold new_GitHubError, toString. destruct (ToString m) as [x|]; cbn; [|discriminate].
  intros [= <-]. cbn. auto.
Qed.

(** X1.  Whenever [createGitHubError] returns an error, the error carries
    the status it was given, and its class is the one of that status:
    401 Authentication, 403 Permission, 404 ResourceNotFound, 409 Conflict,
    422 Validation, 429 RateLimit, Generic for any other status; it never
    builds a Timeout or Network error. *)
Theorem createGitHubError_status_class
        (Date_parse : string -> option Z) (now status : Z) (body : Json)
        (e : GitHubError) :
  createGitHubError Date_parse now status body = Return e ->
  Errors.status e = status /\ class_for status (class e).
Proof.
  unfold createGitHubError.
  destruct (Z.eqb_spec status 401) as [->|N1].
  { unfold new_GitHubAuthenticationError. intros H.
    apply new_GitHubError_Return in H as (-> & -> & _). cbn. auto. }
  destruct (Z.eqb_spec status 403) as [->|N2].
  { unfold new_GitHubPermissionError. intros H.
    apply new_GitHubError_Return in H as (-> & -> & _). cbn. auto. }
  destruct (Z.eqb_spec status 404) as [->|N3].
  { unfold new_GitHubResourceNotFoundError.
    destruct (toString _); cbn [bind]; [|discriminate]. intros H.
    apply new_GitHubError_Return in H as (-> & -> & _). cbn. auto. }
  destruct (Z.eqb_spec status 409) as [->|N4].
  { unfold new_GitHubConflictError. intros H.
    apply new_GitHubError_Return in H as (-> & -> & _). cbn. auto. }
  destruct (Z.eqb_spec status 422) as [->|N5].
  { unfold new_GitHubValidationError. intros H.
    apply new_GitHubError_Return in H as (-> & -> & _). cbn. auto. }
  destruct (Z.eqb_spec status 429) as [->|N6].
  { destruct (new_Date _ _) as [d|]; cbn [bind]; [|discriminate].
    unfold new_GitHubRateLimitError. destruct (valid_time d); cbn [bind]; [|discriminate].
    intros H. apply new_GitHubError_Return in H as (-> & -> & _). cbn. auto. }
  intros H. apply new_GitHubError_Return in H as (-> & -> & _). cbn.
  unfold unmapped. auto 10.
Qed.

Lemma createGitHubError_status_class_witness :
  exists e, createGitHubError Sample.Date_parse 1700000000000 403
              (JObj [("message", JStr "Forbidden")]) = Return e
            /\ Errors.status e = 403 /\ class e = Permission.
Proof.
  eexists. split; [reflexivity|].
  destruct (createGitHubError_status_class Sample.Date_parse 1700000000000 403
              (JObj [("message", JStr "Forbidden")]) _ eq_refl) as [H _].
  split; [exact H | reflexivity].
Defined.

(** X2.  A body without a [message] property (a text body, an array, an
    object lacking the key) never makes [createGitHubError] throw: at any
    status but 429 it returns an error with the default message of the
    status, and at 429 as well when [reset_at] is absent or falsy, the reset
    time then being now + 60 seconds. *)
Theorem createGitHubError_without_message
        (Date_parse : string -> option Z) (now status : Z) (body : Json) :
  get (Some body) "message" = None ->
  (status <> 429 ->
   exists e, createGitHubError Date_parse now status body = Return e
             /\ message e = default_message status)
  /\ (truthy (get (Some body) "reset_at") = false ->
      Z.abs (now + 60000) <= 8640000000000000 ->
      exists e, createGitHubError Date_parse now 429 body = Return e
                /\ message e = default_message 429
                /\ class e = RateLimit (now + 60000)).
Proof.
  intros Hm. split.
  - intros N6. unfold createGitHubError, default_message. rewrite Hm.
    repeat match goal with
           | |- context [if ?a =? ?b then _ else _] =>
               destruct (Z.eqb_spec a b); [subst; try lia; eexists; split; reflexivity|]
           end.
    eexists; split; reflexivity.
  - intros Hr Hb. rewrite createGitHubError_429, Hm, (or_else_falsy _ _ Hr).
    unfold new_Date, TimeClip. apply Z.leb_le in Hb. rewrite Hb.
    eexists. split; [reflexivity|]. split; reflexivity.
Qed.

Lemma createGitHubError_without_message_witness :
  exists e, createGitHubError Sample.Date_parse 1700000000000 503
              (JStr "Service Unavailable") = Return e
            /\ message e = "GitHub API error".
Proof.
  apply (proj1 (createGitHubError_without_message Sample.Date_parse 1700000000000 503
                  (JStr "Service Unavailable") eq_refl)).
  discriminate.
Defined.

End ErrorsMore.

(** ** More on the request gateway *)

Module GatewayMore.
Import Js Errors Gateway Props Terms GatewayFacts Worlds ErrorsFacts.

Lemma rolled_fetched env s : fetched (rolled env s) = fetched s.
Proof. unfold rolled. destruct (_ >? _); reflexivity. Qed.

(** The state in which the request of an admitted call is sent, and the
    one its call of [fetch] leaves *)
Lemma githubRequest_send env url options s :
  count_checked env s < 60 -> on_trusted_host url = true ->
  githubRequest env url options s = send env url options (admitted (rolled env s))
  /\ fetched (admitted (rolled env s)) = fetched s.
Proof.
  intros Hq Hu. rewrite count_checked_rolled in Hq. split.
  - now apply githubRequest_sent.
  - cbn. apply rolled_fetched.
Qed.

Lemma send_rejected env url options s e :
  fetch env (List.length (fetched s)) (fetch_call env url options) = Throw e ->
  fst (send env url options s)
  = fst (@on_error Json (request_timeout options) (Plain e) s).
Proof.
  intros H. cbv beta iota zeta delta [send try_catch Gateway.bind do_fetch].
  rewrite H. cbn [on_error].
  destruct (String.eqb (err_name e) "AbortError"); [reflexivity|].
  destruct (err_cause_code e) as [c|]; [|reflexivity].
  destruct (String.eqb c "ENOTFOUND" || String.eqb c "ECONNREFUSED"); reflexivity.
Qed.

(** X3.  When [fetch] rejects with an [AbortError], an admitted request on
    the trusted host fails with a Timeout error of status 408 whose message
    and [timeoutMs] give the delay of the timer: the [timeout] option, or
    30000 ms when the option is missing or zero. *)
Theorem githubRequest_timeout (env : Env) (url : string) (options : RequestOptions)
        (s : State) (e : JsError) :
  count_checked env s < 60 -> on_trusted_host url = true ->
  fetch env (List.length (fetched s)) (fetch_call env url options) = Throw e ->
  err_name e = "AbortError" ->
  let t := request_timeout options in
  fst (githubRequest env url options s)
  = Throw (GitHub (mkGitHubError (Timeout t)
                     ("Request timeout after " ++ Number_toString t ++ "ms") 408
                     (Body (JObj [("message",
                                   JStr ("Request timeout after " ++ Number_toString t ++ "ms"));
                                  ("timeout_ms", JNum t)]))))
  /\ (timeout options = None \/ timeout options = Some 0 -> t = 30000)
  /\ (forall ms, timeout options = Some ms -> ms <> 0 -> t = ms).
Proof.
  intros Hq Hu Hf Hn t.
  destruct (githubRequest_send env url options s Hq Hu) as [-> Hlog].
  rewrite <- Hlog in Hf. rewrite (send_rejected _ _ _ _ _ Hf).
  cbn [on_error]. rewrite Hn. cbn. split; [reflexivity|]. subst t. unfold request_timeout.
  split.
  - intros [-> | ->]; reflexivity.
  - intros ms -> Hms. destruct (Z.eqb_spec ms 0); [contradiction | reflexivity].
Qed.

Lemma githubRequest_timeout_witness :
  fst (githubRequest aborting "https://api.github.com/user"
         (mkRequestOptions None None [] (Some 5000)) Sample.start)
  = Throw (GitHub (mkGitHubError (Timeout 5000) "Request timeout after 5000ms" 408
                     (Body (JObj [("message", JStr "Request timeout after 5000ms");
                                  ("timeout_ms", JNum 5000)])))).
Proof.
  apply (githubRequest_timeout aborting "https://api.github.com/user"
           (mkRequestOptions None None [] (Some 5000)) Sample.start
           (mkJsError "AbortError" "This operation was aborted" None));
    reflexivity.
Defined.

(** X4.  When [fetch] rejects with any other error, the request fails with
    a Network error of status 500 carrying the code of the cause: with the
    fixed message for [ENOTFOUND] and [ECONNREFUSED], with the message of
    the error after [Network error: ] for another code; and with a Generic
    error of status 500 and the message of the error when there is no
    code. *)
Theorem githubRequest_transport_failure (env : Env) (url : string)
        (options : RequestOptions) (s : State) (e : JsError) :
  count_checked env s < 60 -> on_trusted_host url = true ->
  fetch env (List.length (fetched s)) (fetch_call env url options) = Throw e ->
  err_name e <> "AbortError" ->
  let thrown := fst (githubRequest env url options s) in
  (forall c, err_cause_code e = Some c -> c = "ENOTFOUND" \/ c = "ECONNREFUSED" ->
     thrown = Throw (GitHub (new_GitHubNetworkError "Unable to connect to GitHub API" c)))
  /\ (forall c, err_cause_code e = Some c -> c <> "ENOTFOUND" -> c <> "ECONNREFUSED" ->
        c <> "" ->
        thrown = Throw (GitHub (new_GitHubNetworkError
                                  ("Network error: " ++ err_message e) c)))
  /\ (err_cause_code e = None \/ err_cause_code e = Some "" ->
      thrown = Throw (GitHub (mkGitHubError Generic (err_message e) 500
                                (Body (JObj [("message", JStr (err_message e))]))))).
Proof.
  intros Hq Hu Hf Hn thrown. subst thrown.
  destruct (githubRequest_send env url options s Hq Hu) as [-> Hlog].
  rewrite <- Hlog in Hf. rewrite (send_rejected _ _ _ _ _ Hf).
  cbn [on_error]. apply String.eqb_neq in Hn. rewrite Hn.
  split; [|split].
  - intros c Hc [-> | ->]; rewrite Hc; reflexivity.
  - intros c Hc N1 N2 N3. rewrite Hc.
    apply String.eqb_neq in N1, N2. rewrite N1, N2. cbn.
    unfold createEnhancedGitHubError, cause_code. rewrite Hn, Hc.
    destruct c; [contradiction | reflexivity].
  - intros [Hc | Hc]; rewrite Hc; cbn;
      unfold createEnhancedGitHubError, cause_code; rewrite Hn, Hc; reflexivity.
Qed.

Lemma githubRequest_transport_failure_witness :
  fst (githubRequest unreachable "https://api.github.com/user" no_options Sample.start)
  = Throw (GitHub (mkGitHubError (Network "ENOTFOUND") "Unable to connect to GitHub API" 500
                     (Body (JObj [("message", JStr "Unable to connect to GitHub API");
                                  ("error_code", JStr "ENOTFOUND")])))).
Proof.
  apply (proj1 (githubRequest_transport_failure unreachable "https://api.github.com/user"
                  no_options Sample.start
                  (mkJsError "TypeError" "fetch failed" (Some "ENOTFOUND"))
                  eq_refl eq_refl eq_refl ltac:(discriminate)) "ENOTFOUND" eq_refl).
  left. reflexivity.
Defined.

Lemma send_answered env url options s response :
  fetch env (List.length (fetched s)) (fetch_call env url options) = Return response ->
  let s1 := mkState (requestCount s) (requestCountResetTime s) (clock_reads s)
                    (fetched s ++ [fetch_call env url options])%list in
  send env url options s
  = match parseResponseBody response with
    | Return responseBody =>
        if negb (ok response) then
          match createGitHubError_now env (resp_status response) responseBody s1 with
          | (Return g, s2) => on_error (request_timeout options) (GitHub g) s2
          | (Throw x, s2) => on_error (request_timeout options) x s2
          end
        else (Return responseBody, s1)
    | Throw x => on_error (request_timeout options) (Plain x) s1
    end.
Proof.
  intros H s1. cbv beta iota zeta delta [send try_catch Gateway.bind do_fetch].
  rewrite H. fold s1.
  destruct (parseResponseBody response) as [b|x]; cbn [lift ret throw]; [|reflexivity].
  destruct (ok response); cbn [negb]; [reflexivity|].
  destruct (createGitHubError_now env (resp_status response) b s1) as [[g|x] s2];
    reflexivity.
Qed.

Lemma createGitHubError_now_result env status body s :
  fst (createGitHubError_now env status body s)
  = match createGitHubError (Date_parse env) (clock env (clock_reads s)) status body with
    | Return g => Return g
    | Throw x => Throw (Plain x)
    end.
Proof.
  unfold createGitHubError_now.
  destruct ((status =? 429) && negb (truthy (get (Some body) "reset_at"))) eqn:E.
  - unfold Gateway.bind, Date_now.
    destruct (createGitHubError _ _ _ _); reflexivity.
  - rewrite (createGitHubError_clock _ (clock env (clock_reads s)) 0 _ _ E).
    destruct (createGitHubError _ _ _ _); reflexivity.
Qed.

(** X5.  When [fetch] answers an admitted request and the body is read,
    the request returns the body exactly when the status is 2xx; at any
    other status it throws a [GitHubError], which is the error
    [createGitHubError] builds from the status and the body whenever that
    returns one. *)
Theorem githubRequest_response (env : Env) (url : string) (options : RequestOptions)
        (s : State) (response : Response) (responseBody : Json) :
  count_checked env s < 60 -> on_trusted_host url = true ->
  fetch env (List.length (fetched s)) (fetch_call env url options) = Return response ->
  parseResponseBody response = Return responseBody ->
  let result := fst (githubRequest env url options s) in
  (ok response = true -> result = Return responseBody)
  /\ (ok response = false -> exists g, result = Throw (GitHub g))
  /\ (ok response = false ->
      forall g, createGitHubError (Date_parse env) (clock env (clock_reads (rolled env s)))
                  (resp_status response) responseBody = Return g ->
                result = Throw (GitHub g)).
Proof.
  intros Hq Hu Hf Hb result. subst result.
  destruct (githubRequest_send env url options s Hq Hu) as [-> Hlog].
  rewrite <- Hlog in Hf. rewrite (send_answered _ _ _ _ _ Hf), Hb.
  split; [|split].
  - intros ->. reflexivity.
  - intros ->. cbn [negb].
    destruct (createGitHubError_now _ _ _ _) as [[g|x] s2].
    + eexists. reflexivity.
    + destruct (@on_error_throws Json (request_timeout options) x s2) as [g ->].
      eexists. reflexivity.
  - intros -> g Hg. cbn [negb].
    match goal with
    | |- context [createGitHubError_now ?e ?st ?b ?s0] =>
        pose proof (createGitHubError_now_result e st b s0) as Hr;
        destruct (createGitHubError_now e st b s0) as [r s2]
    end.
    cbn [fst clock_reads admitted] in Hr. rewrite Hg in Hr. subst r.
    reflexivity.
Qed.

Lemma githubRequest_response_witness :
  fst (githubRequest (answering (Return not_found)) "https://api.github.com/repos/a/b"
         no_options Sample.start)
  = Throw (GitHub (mkGitHubError ResourceNotFound "Resource not found: Not Found" 404
                     (Body (JObj [("message", JStr "Not Found not found")]))))
  /\ fst (githubRequest Sample.env "https://api.github.com/repos/a/b" no_options
            Sample.start)
     = Return (JStr "").
Proof.
  split.
  - apply (proj2 (proj2 (githubRequest_response (answering (Return not_found))
                           "https://api.github.com/repos/a/b" no_options Sample.start
                           not_found (JObj [("message", JStr "Not Found")])
                           eq_refl eq_refl eq_refl eq_refl)) eq_refl).
    reflexivity.
  - apply (proj1 (githubRequest_response Sample.env
                    "https://api.github.com/repos/a/b" no_options Sample.start
                    Sample.no_content (JStr "") eq_refl eq_refl eq_refl eq_refl)).
    reflexivity.
Defined.

(** X6.  A body that cannot be read.  With a JSON content type, any
    rejection of [response.json()], a syntax error or an abort alike and
    whatever the status, ends as a Generic error of status 500 whose message
    is [Error parsing JSON response: ] followed by the error; with another
    content type or none, a rejection of [response.text()] is classified as
    a rejection of [fetch] is. *)
Theorem githubRequest_body_unreadable (env : Env) (url : string)
        (options : RequestOptions) (s : State) (response : Response) (e : JsError) :
  count_checked env s < 60 -> on_trusted_host url = true ->
  fetch env (List.length (fetched s)) (fetch_call env url options) = Return response ->
  let result := fst (githubRequest env url options s) in
  (forall contentType,
      resp_content_type response = Some contentType ->
      JsString.includes contentType "application/json" = true ->
      resp_json response = Throw e ->
      let m := "Error parsing JSON response: " ++ Error_toString e in
      result = Throw (GitHub (mkGitHubError Generic m 500
                                (Body (JObj [("message", JStr m)])))))
  /\ ((resp_content_type response = None
       \/ exists contentType, resp_content_type response = Some contentType
            /\ JsString.includes contentType "application/json" = false) ->
      resp_text response = Throw e ->
      result = fst (@on_error Json (request_timeout options) (Plain e) s)).
Proof.
  intros Hq Hu Hf result. subst result.
  destruct (githubRequest_send env url options s Hq Hu) as [-> Hlog].
  rewrite <- Hlog in Hf. rewrite (send_answered _ _ _ _ _ Hf).
  split.
  - intros contentType Hc Hi Hj m. unfold parseResponseBody. rewrite Hc, Hi, Hj.
    reflexivity.
  - intros Hc Ht.
    assert (Hp : parseResponseBody response = Throw e).
    { unfold parseResponseBody. rewrite Ht.
      destruct Hc as [-> | (contentType & -> & ->)]; reflexivity. }
    rewrite Hp. cbn [on_error].
    destruct (String.eqb (err_name e) "AbortError"); [reflexivity|].
    destruct (err_cause_code e) as [c|]; [|reflexivity].
    destruct (String.eqb c "ENOTFOUND" || String.eqb c "ECONNREFUSED"); reflexivity.
Qed.

Lemma githubRequest_body_unreadable_witness :
  fst (githubRequest (answering (Return garbled)) "https://api.github.com/user"
         no_options Sample.start)
  = Throw (GitHub (mkGitHubError Generic
                     "Error parsing JSON response: SyntaxError: Unexpected token < in JSON at position 0"
                     500
                     (Body (JObj [("message",
                                   JStr "Error parsing JSON response: SyntaxError: Unexpected token < in JSON at position 0")])))).
Proof.
  apply (proj1 (githubRequest_body_unreadable (answering (Return garbled))
                  "https://api.github.com/user" no_options Sample.start garbled
                  (mkJsError "SyntaxError" "Unexpected token < in JSON at position 0" None)
                  eq_refl eq_refl eq_refl) "application/json; charset=utf-8");
    reflexivity.
Defined.

(** X7.  Whatever [githubRequest] throws is the error of the URL check
    (the call passed the quota check, the URL is off the trusted host), the
    local rate-limit error (the counter is at the ceiling), or a
    [GitHubError] (the call was admitted and sent): an error of the
    transport never leaves it as it is. *)
Theorem githubRequest_failure_kinds (env : Env) (url : string)
        (options : RequestOptions) (s : State) (e : Exn) :
  fst (githubRequest env url options s) = Throw e ->
  (e = url_error /\ on_trusted_host url = false /\ count_checked env s < 60)
  \/ (is_rate_limit_error e /\ 60 <= count_checked env s)
  \/ (exists g, e = GitHub g /\ on_trusted_host url = true /\ count_checked env s < 60).
Proof.
  rewrite count_checked_rolled. intros H.
  destruct (Z.lt_ge_cases (requestCount (rolled env s)) 60) as [Hq|Hq].
  - destruct (on_trusted_host url) eqn:Hu.
    + right. right. rewrite (githubRequest_sent _ _ _ _ Hq Hu) in H.
      destruct (send_spec env url options (admitted (rolled env s)))
        as (r & s' & E & _ & _ & _ & Hg).
      rewrite E in H. destruct (Hg _ H) as [g ->]. eauto.
    + left. rewrite (githubRequest_off_host _ _ _ _ Hq Hu) in H.
      injection H as <-. auto.
  - right. left. rewrite (githubRequest_closed _ _ _ _ Hq) in H.
    injection H as <-. split; [eexists; reflexivity | assumption].
Qed.

Lemma githubRequest_failure_kinds_witness :
  is_rate_limit_error (Plain (Error "Rate limit exceeded. Please try again in 60 seconds."))
  /\ 60 <= count_checked Sample.env Sample.exhausted.
Proof.
  destruct (githubRequest_failure_kinds Sample.env "https://api.github.com/user"
              no_options Sample.exhausted
              (Plain (Error "Rate limit exceeded. Please try again in 60 seconds."))
              eq_refl) as [(H & _) | [H | (g & H & _)]].
  - vm_compute in H. discriminate.
  - exact H.
  - discriminate.
Defined.

(** What one call does to the window and the log: it sends one request
    at most, to the trusted host, and the counter rises by one when the
    call is admitted. *)
Lemma after_effect env url options s :
  exists sent,
    fetched (after env url options s) = (fetched s ++ sent)%list
    /\ Forall (fun c => on_trusted_host (fetch_url c) = true) sent
    /\ (List.length sent <= 1)%nat
    /\ requestCountResetTime (after env url options s)
       = requestCountResetTime (rolled env s)
    /\ ((requestCount (rolled env s) < 60
         /\ requestCount (after env url options s) = requestCount (rolled env s) + 1)
        \/ (60 <= requestCount (rolled env s) /\ sent = []
            /\ requestCount (after env url options s) = requestCount (rolled env s))).
Proof.
  unfold after.
  destruct (Z.lt_ge_cases (requestCount (rolled env s)) 60) as [Hq|Hq].
  - destruct (on_trusted_host url) eqn:Hu.
    + rewrite (githubRequest_sent _ _ _ _ Hq Hu).
      destruct (send_spec env url options (admitted (rolled env s)))
        as (r & s' & -> & H1 & H2 & H3 & _).
      exists [fetch_call env url options]. cbn [snd].
      rewrite H1, H2, H3. cbn [admitted fetched requestCount requestCountResetTime].
      rewrite rolled_fetched. repeat split; auto.
    + rewrite (githubRequest_off_host _ _ _ _ Hq Hu). exists []. cbn.
      rewrite rolled_fetched, app_nil_r. repeat split; auto.
  - rewrite (githubRequest_closed _ _ _ _ Hq). exists []. cbn.
    rewrite rolled_fetched, app_nil_r. repeat split; auto.
Qed.

Lemma rolled_in_bounds env s : counter_in_bounds s -> counter_in_bounds (rolled env s).
Proof.
  unfold counter_in_bounds, rolled, MAX_REQUESTS_PER_MINUTE.
  destruct (_ >? _); cbn; lia.
Qed.

(** X8.  Whatever sequence of calls is made, the counter stays between
    zero and the ceiling of 60, the log of requests only grows, by one
    request a call at most (nothing is retried), and every request added
    went to the trusted host. *)
Theorem calls_keep_window_and_log (env : Env) (calls : list (string * RequestOptions))
        (s : State) :
  counter_in_bounds s ->
  counter_in_bounds (after_all env calls s)
  /\ exists sent,
      fetched (after_all env calls s) = (fetched s ++ sent)%list
      /\ (List.length sent <= List.length calls)%nat
      /\ Forall (fun c => on_trusted_host (fetch_url c) = true) sent.
Proof.
  revert s. induction calls as [|[url options] calls IH]; intros s Hb.
  - split; [exact Hb|]. exists []. cbn. rewrite app_nil_r. auto.
  - cbn [after_all fold_left fst snd].
    destruct (after_effect env url options s) as (sent1 & F1 & T1 & L1 & _ & Hc).
    assert (Hb1 : counter_in_bounds (after env url options s)).
    { pose proof (rolled_in_bounds env s Hb) as Hr.
      unfold counter_in_bounds, MAX_REQUESTS_PER_MINUTE in *.
      destruct Hc as [[? ->] | (? & _ & ->)]; lia. }
    destruct (IH _ Hb1) as (Hb2 & sent2 & F2 & L2 & T2).
    split; [exact Hb2|].
    exists (sent1 ++ sent2)%list. unfold after_all in F2. rewrite F2, F1, app_assoc.
    split; [reflexivity|]. split.
    + rewrite length_app. cbn [List.length]. lia.
    + apply Forall_app. auto.
Qed.

Lemma calls_keep_window_and_log_witness :
  counter_in_bounds (after_all Sample.still Sample.sixty_calls Sample.start)
  /\ exists sent,
      fetched (after_all Sample.still Sample.sixty_calls Sample.start)
      = (fetched Sample.start ++ sent)%list
      /\ (List.length sent <= List.length Sample.sixty_calls)%nat
      /\ Forall (fun c => on_trusted_host (fetch_url c) = true) sent.
Proof.
  apply calls_keep_window_and_log.
  vm_compute. split; discriminate.
Defined.

(** X9.  As long as the clock does not pass the reset time, a sequence of
    calls however long sends no more requests than the window has left:
    60 less the counter it started from. *)
Theorem window_bounds_requests (env : Env) (calls : list (string * RequestOptions))
        (s : State) :
  counter_in_bounds s ->
  (forall k, clock env k <= requestCountResetTime s) ->
  exists sent,
    fetched (after_all env calls s) = (fetched s ++ sent)%list
    /\ Z.of_nat (List.length sent) <= 60 - requestCount s.
Proof.
  revert s. induction calls as [|[url options] calls IH]; intros s Hb Hc.
  - exists []. unfold after_all. cbn [fold_left List.length]. rewrite app_nil_r.
    unfold counter_in_bounds, MAX_REQUESTS_PER_MINUTE in Hb.
    split; [reflexivity | lia].
  - cbn [after_all fold_left fst snd].
    destruct (after_effect env url options s) as (sent1 & F1 & _ & L1 & R1 & C1).
    destruct (rolled_in_window env s (Hc _)) as (W1 & W2 & _).
    rewrite W2 in R1. rewrite W1 in C1.
    assert (Hb1 : counter_in_bounds (after env url options s)).
    { unfold counter_in_bounds, MAX_REQUESTS_PER_MINUTE in *.
      destruct C1 as [[? ->] | (? & _ & ->)]; lia. }
    assert (Hc1 : forall k, clock env k <= requestCountResetTime (after env url options s))
      by (intros k; rewrite R1; apply Hc).
    destruct (IH _ Hb1 Hc1) as (sent2 & F2 & L2).
    exists (sent1 ++ sent2)%list. unfold after_all in F2. rewrite F2, F1, app_assoc.
    split; [reflexivity|]. rewrite length_app, Nat2Z.inj_add.
    destruct C1 as [[? E] | (? & -> & E)]; rewrite E in L2; cbn [List.length] in *; lia.
Qed.

Lemma window_bounds_requests_witness :
  exists sent,
    fetched (after_all Sample.still
               (Sample.sixty_calls ++ Sample.sixty_calls ++ Sample.sixty_calls)
               Sample.start)
    = (fetched Sample.start ++ sent)%list
    /\ Z.of_nat (List.length sent) <= 60 - requestCount Sample.start.
Proof.
  apply window_bounds_requests.
  - vm_compute. split; discriminate.
  - intros k. vm_compute. discriminate.
Defined.

Lemma lookup_assign_same k v o : lookup k (assign k v o) = Some v.
Proof.
  induction o as [|[k' v'] o IH]; cbn.
  - now rewrite String.eqb_refl.
  - destruct (String.eqb_spec k k') as [->|N]; cbn.
    + now rewrite String.eqb_refl.
    + apply String.eqb_neq in N. now rewrite N.
Qed.

Lemma lookup_assign_other k k' v o : k' <> k -> lookup k' (assign k v o) = lookup k' o.
Proof.
  intros N. induction o as [|[k0 v0] o IH]; cbn.
  - apply String.eqb_neq in N. now rewrite N.
  - destruct (String.eqb_spec k k0) as [->|N0]; cbn.
    + apply String.eqb_neq in N. now rewrite N.
    + now rewrite IH.
Qed.

Lemma lookup_spread_absent k extra : forall o,
  lookup k extra = None -> lookup k (spread o extra) = lookup k o.
Proof.
  induction extra as [|[k' v'] extra IH]; intros o H; [reflexivity|].
  cbn in H. destruct (String.eqb_spec k k') as [->|N]; [discriminate|].
  unfold spread in *. cbn [fold_left fst snd]. rewrite (IH _ H).
  now apply lookup_assign_other.
Qed.

Lemma lookup_absent {A} k (l : list (string * A)) :
  ~ In k (map fst l) -> lookup k l = None.
Proof.
  induction l as [|[k' v'] l IH]; cbn; [reflexivity|]. intros H.
  destruct (String.eqb_spec k k') as [->|N]; [tauto | apply IH; tauto].
Qed.

Lemma lookup_spread_present k v extra : forall o,
  NoDup (map fst extra) -> In (k, v) extra -> lookup k (spread o extra) = Some v.
Proof.
  induction extra as [|[k' v'] extra IH]; intros o Hnd Hin; [contradiction|].
  cbn in Hnd. inversion Hnd as [|? ? Hni Hnd']; subst.
  unfold spread in *. cbn [fold_left fst snd].
  destruct Hin as [[= -> ->] | Hin].
  - fold (spread (assign k v o) extra).
    rewrite (lookup_spread_absent _ _ _ (lookup_absent _ _ Hni)).
    apply lookup_assign_same.
  - now apply IH.
Qed.

(** X10.  The headers of a request.  With a non-empty access token in the
    environment the [Authorization] header is [Bearer] and the token,
    whatever the caller passed; any other header the caller passes
    replaces the default of the same name; and a header the caller does not
    pass has the default value, if there is one. *)
Theorem request_headers_precedence (env : Env) (options : RequestOptions) :
  (forall token, GITHUB_PERSONAL_ACCESS_TOKEN env = Some token -> token <> "" ->
     lookup "Authorization" (request_headers env options) = Some ("Bearer " ++ token))
  /\ (forall k v, NoDup (map fst (headers options)) -> In (k, v) (headers options) ->
        k <> "Authorization" ->
        lookup k (request_headers env options) = Some v)
  /\ (forall k, lookup k (headers options) = None -> k <> "Authorization" ->
        lookup k (request_headers env options)
        = lookup k [("Accept", "application/vnd.github.v3+json");
                    ("Content-Type", "application/json");
                    ("User-Agent", USER_AGENT env)]).
Proof.
  unfold request_headers. split; [|split].
  - intros token -> Hne. destruct token; [contradiction|]. cbn [JsString.truthy].
    apply lookup_assign_same.
  - intros k v Hnd Hin Hk.
    assert (H : lookup k (spread [("Accept", "application/vnd.github.v3+json");
                                  ("Content-Type", "application/json");
                                  ("User-Agent", USER_AGENT env)] (headers options))
                = Some v) by now apply lookup_spread_present.
    destruct (GITHUB_PERSONAL_ACCESS_TOKEN env) as [token|]; [|exact H].
    destruct (JsString.truthy token); [|exact H].
    now rewrite lookup_assign_other.
  - intros k Hno Hk.
    pose proof (lookup_spread_absent k (headers options)
                  [("Accept", "application/vnd.github.v3+json");
                   ("Content-Type", "application/json");
                   ("User-Agent", USER_AGENT env)] Hno) as H.
    destruct (GITHUB_PERSONAL_ACCESS_TOKEN env) as [token|]; [|exact H].
    destruct (JsString.truthy token); [|exact H].
    now rewrite lookup_assign_other.
Qed.

Lemma request_headers_precedence_witness :
  lookup "Authorization"
    (request_headers authenticated
       (mkRequestOptions None None [("Authorization", "Basic abc"); ("Accept", "text/plain")]
          None))
  = Some "Bearer ghp_token"
  /\ lookup "Accept"
       (request_headers authenticated
          (mkRequestOptions None None
             [("Authorization", "Basic abc"); ("Accept", "text/plain")] None))
     = Some "text/plain".
Proof.
  destruct (request_headers_precedence authenticated
              (mkRequestOptions None None
                 [("Authorization", "Basic abc"); ("Accept", "text/plain")] None))
    as (Ha & Hb & _).
  split.
  - apply Ha; [reflexivity | discriminate].
  - apply Hb; [| cbn; tauto | discriminate].
    repeat constructor; cbn; intuition discriminate.
Defined.

End GatewayMore.

(** ** More on the validators *)

Module ValidatorMore.
Import JsString Validator Terms ValidatorFacts.

Lemma owner_char_is_repo_char c : is_owner_char c = true -> is_repo_char c = true.
Proof.
  unfold is_owner_char, is_repo_char. intros H. apply orb_true_iff in H as [-> | ->].
  - reflexivity.
  - now rewrite !orb_true_r.
Qed.

Lemma owner_rule_tail_chars s : owner_rule_tail s -> forallb is_owner_char s = true.
Proof.
  induction 1 as [|c r Hc Ht IH|c r Hc Ht IH]; cbn [forallb]; [reflexivity| |].
  - unfold is_owner_char at 1. now rewrite Hc, IH.
  - unfold is_owner_char at 1 2. now rewrite Hc, IH.
Qed.

Lemma owner_rule_tail_last s :
  owner_rule_tail s -> forall c, is_alnum c = true ->
  exists d, last (String c s) = Some d /\ is_alnum d = true.
Proof.
  induction 1 as [|d r Hd Ht IH|d r Hd Ht IH]; intros c Hc.
  - exists c. auto.
  - destruct (IH d Hd) as (x & Hx & Hax). exists x. auto.
  - destruct (IH d Hd) as (x & Hx & Hax). exists x. auto.
Qed.

Lemma validateOwnerName_Return owner v :
  validateOwnerName owner = Return v ->
  v = toLowerCase (trim owner) /\ owner_re_test v = true.
Proof.
  unfold validateOwnerName.
  destruct (truthy (toLowerCase (trim owner))); cbn [negb]; [|discriminate].
  destruct (owner_re_test (toLowerCase (trim owner))) eqn:E; cbn [negb]; [|discriminate].
  intros [= <-]. auto.
Qed.

Lemma owner_re_test_chars v :
  owner_re_test v = true ->
  forallb is_owner_char v = true /\ (1 <= String.length v <= 39)%nat
  /\ (exists c, head v = Some c /\ is_alnum c = true)
  /\ (exists c, last v = Some c /\ is_alnum c = true).
Proof.
  intros H. apply owner_re_test_rule in H.
  destruct H as (c & r & -> & Hc & Ht & Hl).
  split; [|split; [|split]].
  - cbn [forallb]. unfold is_owner_char at 1.
    now rewrite Hc, (owner_rule_tail_chars _ Ht).
  - split; [apply Nat.lt_0_succ | exact Hl].
  - exists c. auto.
  - now apply owner_rule_tail_last.
Qed.

(** X11.  [validateOwnerName] is idempotent on what it returns, and every
    owner name it returns is also a repository name that
    [validateRepositoryName] returns unchanged. *)
Theorem validateOwnerName_idempotent (owner v : string) :
  validateOwnerName owner = Return v ->
  validateOwnerName v = Return v /\ validateRepositoryName v = Return v.
Proof.
  intros H. destruct (validateOwnerName_Return _ _ H) as [_ Hre].
  destruct (owner_re_test_chars _ Hre) as (Hch & Hlen & (c & Hh & Hc) & (d & Hl & Hd)).
  assert (Hrepo : forallb is_repo_char v = true)
    by (apply (forallb_impl is_owner_char); [apply owner_char_is_repo_char | exact Hch]).
  assert (Hne : truthy v = true) by (destruct v; [discriminate | reflexivity]).
  split.
  - unfold validateOwnerName. rewrite (sanitize_fixed _ Hrepo), Hne, Hre. reflexivity.
  - unfold validateRepositoryName. rewrite (sanitize_fixed _ Hrepo), Hne.
    assert (Hrt : repo_re_test v = true) by (destruct v; [discriminate | exact Hrepo]).
    rewrite Hrt. cbn [negb].
    assert (Hs : startsWith v "." = false).
    { destruct (startsWith v ".") eqn:E; [|reflexivity].
      apply startsWith_period in E. rewrite Hh in E. injection E as ->. discriminate. }
    assert (He : endsWithChar v "." = false).
    { destruct (endsWithChar v ".") eqn:E; [|reflexivity].
      apply endsWith_period in E. rewrite Hl in E. injection E as ->. discriminate. }
    rewrite Hs, He. reflexivity.
Qed.

Lemma validateOwnerName_idempotent_witness :
  validateOwnerName "octo-cat" = Return "octo-cat"
  /\ validateRepositoryName "octo-cat" = Return "octo-cat".
Proof.
  apply (validateOwnerName_idempotent "  Octo-Cat "). vm_compute. reflexivity.
Defined.

(** X12.  What the validators let through is safe in a path: an owner
    name has 1 to 39 characters of [[a-z0-9-]], a repository name is not
    empty, has only characters of [[a-z0-9_.-]] and is neither [.] nor
    [..]; and none of these characters is a slash, a question mark, a hash,
    a percent sign, a space, a backslash, an at sign or a colon. *)
Theorem validated_names_are_path_safe (name v : string) :
  (validateOwnerName name = Return v ->
   (1 <= String.length v <= 39)%nat /\ forallb is_owner_char v = true)
  /\ (validateRepositoryName name = Return v ->
      (1 <= String.length v)%nat /\ forallb is_repo_char v = true
      /\ v <> "." /\ v <> "..")
  /\ (forall c, is_repo_char c = true ->
        c <> "/"%char /\ c <> "?"%char /\ c <> "#"%char /\ c <> "%"%char
        /\ c <> " "%char /\ c <> "\"%char /\ c <> "@"%char /\ c <> ":"%char).
Proof.
  split; [|split].
  - intros H. destruct (validateOwnerName_Return _ _ H) as [_ Hre].
    destruct (owner_re_test_chars _ Hre) as (Hch & Hlen & _). auto.
  - intros H. destruct (validateRepositoryName_Return _ _ H) as (_ & Hre & Hs & _).
    split; [destruct v; [discriminate | cbn; lia]|].
    split; [now apply repo_re_test_chars|].
    split; intros ->; discriminate.
  - intros c Hc. repeat split; intros ->; discriminate.
Qed.

Lemma validated_names_are_path_safe_witness :
  (1 <= String.length "my.repo_1")%nat /\ forallb is_repo_char "my.repo_1" = true
  /\ "my.repo_1" <> "." /\ "my.repo_1" <> "..".
Proof.
  apply (proj1 (proj2 (validated_names_are_path_safe " My.Repo_1 " "my.repo_1"))).
  vm_compute. reflexivity.
Defined.

End ValidatorMore.

(** ** More on query construction *)

Module UrlMore.
Import JsString Url Props Terms UrlFacts.

Lemma forallb_append p a b : forallb p (a ++ b) = forallb p a && forallb p b.
Proof.
  induction a as [|c a IH]; cbn; [reflexivity|]. rewrite IH. now rewrite andb_assoc.
Qed.

Lemma encode_unit_chars c :
  forallb is_query_char (String.concat "" (map encodeByte (utf8 c))) = true.
Proof. destruct c as [[] [] [] [] [] [] [] []]; vm_compute; reflexivity. Qed.

Lemma encode_chars s : forallb is_query_char (encode s) = true.
Proof.
  induction s as [|c r IH]; cbn [encode]; [reflexivity|].
  now rewrite forallb_append, encode_unit_chars, IH.
Qed.

Lemma query_char_or_separator s :
  forallb is_query_char s = true -> forallb is_query_or_separator s = true.
Proof.
  induction s as [|c r IH]; cbn; [reflexivity|]. intros H.
  apply andb_true_iff in H as [Hc Hr]. rewrite (IH Hr).
  unfold is_query_or_separator. now rewrite Hc.
Qed.

Lemma serialize_chars l : forallb is_query_or_separator (serialize l) = true.
Proof.
  unfold serialize. induction l as [|[k v] l IH]; cbn [map String.concat fst snd].
  - reflexivity.
  - assert (H : forallb is_query_or_separator (encode k ++ "=" ++ encode v) = true).
    { rewrite !forallb_append, (query_char_or_separator _ (encode_chars k)),
        (query_char_or_separator _ (encode_chars v)). reflexivity. }
    destruct (map _ l) eqn:E; [exact H|].
    rewrite forallb_append, H, forallb_append, IH. reflexivity.
Qed.

(** X13.  When [buildUrl] appends at least one parameter, the query of
    the URL it returns is the serialisation of all the pairs, those of the
    base included, and is made of escaped characters and the separators
    [=] and [&] only: a name or value is written with letters, digits and
    [*-._+%], so it cannot add a pair, end the query or start a
    fragment. *)
Theorem buildUrl_escapes_query (URL_parse : string -> option URL)
        (baseUrl : string) (params : list (string * option Scalar)) (url : URL) :
  URL_parse baseUrl = Some url ->
  defined_pairs params <> [] ->
  exists q,
    buildUrl URL_parse baseUrl params
    = Return (origin_path url ++ "?" ++ q
                ++ match fragment url with Some f => "#" ++ f | None => "" end)
    /\ q = serialize (searchParams url ++ defined_pairs params)%list
    /\ forallb is_query_or_separator q = true
    /\ (forall s, forallb is_query_char (encode s) = true).
Proof.
  intros Hp Hne. exists (serialize (searchParams url ++ defined_pairs params)%list).
  destruct (fold_appendParam params url) as (F1 & F2 & F3 & F4).
  rewrite (buildUrl_parsed _ _ _ _ Hp). unfold toString. rewrite F1, F2, F4.
  destruct (defined_pairs params) eqn:E; [contradiction|].
  repeat split; [apply serialize_chars | apply encode_chars].
Qed.

Lemma buildUrl_escapes_query_witness :
  buildUrl Sample.URL_parse "https://api.github.com/x"
    [("actor", Some (Str "a b&c=d")); ("page", Some (Num 2))]
  = Return "https://api.github.com/x?actor=a+b%26c%3Dd&page=2".
Proof.
  destruct (buildUrl_escapes_query Sample.URL_parse "https://api.github.com/x"
              [("actor", Some (Str "a b&c=d")); ("page", Some (Num 2))]
              (mkURL "https://api.github.com/x" None [] None) eq_refl
              ltac:(discriminate)) as (q & H & -> & _).
  exact H.
Defined.

End UrlMore.

(** ** The operations as the tool handler calls them *)

Module ServerFacts.
Import Js Errors Validator Gateway Url Operations Actions Server Props Terms.
Import GatewayFacts GatewayMore UrlFacts OperationsFacts Worlds ErrorsFacts.

(** X14.  Every operation validates the owner first and the repository
    second, before anything else: when either validation throws, the
    operation throws that error and the state is as it was, with no request
    sent and no unit of the quota used; an invalid owner is reported even
    when the repository is invalid too. *)
Theorem every_operation_validates_first (schemas : Schemas) (env : Env)
        (call : ToolCall) (s : State) (e : JsError) :
  (validateOwnerName (call_owner call) = Throw e ->
   callOperation schemas env call s = (Throw (Plain e), s))
  /\ (forall owner, validateOwnerName (call_owner call) = Return owner ->
        validateRepositoryName (call_repo call) = Throw e ->
        callOperation schemas env call s = (Throw (Plain e), s)).
Proof.
  split.
  - intros H. destruct call; cbn [call_owner] in H; cbn [callOperation];
      unfold listWorkflows, getWorkflow, getWorkflowUsage, listWorkflowRuns,
        getWorkflowRun, getWorkflowRunJobs, triggerWorkflow, cancelWorkflowRun,
        rerunWorkflowRun;
      now rewrite (bind_lift_Throw _ _ _ _ H).
  - intros o Ho H. destruct call; cbn [call_owner call_repo] in Ho, H; cbn [callOperation];
      unfold listWorkflows, getWorkflow, getWorkflowUsage, listWorkflowRuns,
        getWorkflowRun, getWorkflowRunJobs, triggerWorkflow, cancelWorkflowRun,
        rerunWorkflowRun;
      rewrite (bind_lift_Return _ _ _ _ Ho); now rewrite (bind_lift_Throw _ _ _ _ H).
Qed.

Lemma every_operation_validates_first_witness :
  callOperation passthrough Sample.env (cancel_workflow_run "octo" ".github" 7) Sample.start
  = (Throw (Plain (Error "Repository name cannot start or end with a period")),
     Sample.start).
Proof.
  apply (proj2 (every_operation_validates_first passthrough Sample.env
                  (cancel_workflow_run "octo" ".github" 7) Sample.start
                  (Error "Repository name cannot start or end with a period")) "octo");
    vm_compute; reflexivity.
Defined.

(** A continuation that leaves the state alone *)
Lemma bind_keeps_state {A B} (m : M A) (k : A -> M B) s :
  (forall a st, snd (k a st) = st) -> snd (Gateway.bind m k s) = snd (m s).
Proof.
  intros H. unfold Gateway.bind. destruct (m s) as [[a|x] s']; cbn; [apply H | reflexivity].
Qed.

Lemma lift_keeps_state {A} (c : Completion JsError A) st : snd (lift c st) = st.
Proof. destruct c; reflexivity. Qed.

Lemma request_then {A} env url options (k : Json -> M A) s :
  (forall a st, snd (k a st) = st) ->
  snd ((response <- githubRequest env url options ;; k response)%gateway s)
  = after env url options s.
Proof. intros H. now rewrite bind_keeps_state. Qed.

Lemma at_most_one_request_refl s : at_most_one_request s s.
Proof. exists []. rewrite app_nil_r. auto. Qed.

Lemma at_most_one_request_after env url options s :
  at_most_one_request s (after env url options s).
Proof.
  destruct (after_effect env url options s) as (sent & F & T & L & _).
  exists sent. auto.
Qed.

Ltac step_validation c :=
  destruct c as [?|?] eqn:?; cbn [lift ret throw];
  [|apply at_most_one_request_refl].

(** X15.  Every operation sends one request at most, whatever the network
    answers and whatever the schema makes of the answer: nothing is
    retried, the log only grows, and the request went to the trusted
    host. *)
Theorem every_operation_sends_at_most_once (schemas : Schemas) (env : Env)
        (call : ToolCall) (s : State) :
  at_most_one_request s (snd (callOperation schemas env call s)).
Proof.
  destruct call; cbn [callOperation];
    unfold listWorkflows, getWorkflow, getWorkflowUsage, listWorkflowRuns,
      getWorkflowRun, getWorkflowRunJobs, triggerWorkflow, cancelWorkflowRun,
      rerunWorkflowRun;
    unfold Gateway.bind at 1;
    (step_validation (validateOwnerName owner));
    unfold Gateway.bind at 1;
    (step_validation (validateRepositoryName repo));
    try (unfold Gateway.bind at 1;
         match goal with
         | |- context [lift (buildUrl ?p ?b ?q)] => step_validation (buildUrl p b q)
         end);
    (rewrite request_then;
     [apply at_most_one_request_after | intros; first [apply lift_keeps_state | reflexivity]]).
Qed.


Lemma append_assoc (a b c : string) : (a ++ b) ++ c = a ++ (b ++ c).
Proof. induction a as [|x a IH]; cbn; [reflexivity | now rewrite IH]. Qed.

(** An action: a request, then a fixed acknowledgement *)
Lemma request_then_ack env url options (ack : Json) s :
  on_trusted_host url = true -> count_checked env s < 60 ->
  let run := (githubRequest env url options ;; ret ack)%gateway s in
  fetched (snd run) = (fetched s ++ [fetch_call env url options])%list
  /\ (forall response responseBody,
        fetch env (List.length (fetched s)) (fetch_call env url options) = Return response ->
        parseResponseBody response = Return responseBody ->
        ok response = true -> fst run = Return ack)
  /\ (forall e, fst (githubRequest env url options s) = Throw e -> fst run = Throw e)
  /\ (forall v, fst run = Return v -> v = ack).
Proof.
  intros Hu Hq run. subst run.
  destruct (githubRequest_send env url options s Hq Hu) as [E Hlog].
  unfold Gateway.bind. rewrite E.
  destruct (send_spec env url options (admitted (rolled env s)))
    as (r & s' & Es & _ & _ & Hf & _).
  rewrite Hlog in Hf.
  split; [|split; [|split]].
  - rewrite Es. destruct r; cbn; exact Hf.
  - intros response responseBody Hfetch Hbody Hok.
    rewrite <- Hlog in Hfetch. rewrite (send_answered _ _ _ _ _ Hfetch), Hbody, Hok.
    reflexivity.
  - intros e He. rewrite Es in *. cbn in He. subst r. reflexivity.
  - intros v. rewrite Es. destruct r; cbn; [intros [= <-]; reflexivity | discriminate].
Qed.

(** X16.  For valid names and a call that passes the quota check,
    [cancelWorkflowRun] and [rerunWorkflowRun] send exactly one POST
    without a body to the [cancel] and [rerun] paths of the run; on a 2xx
    answer with a readable body they return the acknowledgement naming the
    run, and they never return anything else, whatever the body holds. *)
Theorem cancel_and_rerun (env : Env) (owner repo : string) (runId : Z) (s : State)
        (o r : string) :
  validateOwnerName owner = Return o ->
  validateRepositoryName repo = Return r ->
  count_checked env s < 60 ->
  let base := "https://api.github.com/repos/" ++ o ++ "/" ++ r ++ "/actions/runs/"
                ++ Number_toString runId in
  let cancel_url := base ++ "/cancel" in
  let rerun_url := base ++ "/rerun" in
  let ack text := JObj [("success", JBool true);
                        ("message", JStr ("Workflow run " ++ Number_toString runId ++ text))] in
  let sent url := mkFetchCall url "POST" (request_headers env post) None 30000 in
  (fetched (snd (cancelWorkflowRun env owner repo runId s))
   = (fetched s ++ [sent cancel_url])%list
   /\ fetched (snd (rerunWorkflowRun env owner repo runId s))
      = (fetched s ++ [sent rerun_url])%list)
  /\ (forall response responseBody,
        fetch env (List.length (fetched s)) (sent cancel_url) = Return response ->
        parseResponseBody response = Return responseBody -> ok response = true ->
        fst (cancelWorkflowRun env owner repo runId s) = Return (ack " cancelled"))
  /\ (forall response responseBody,
        fetch env (List.length (fetched s)) (sent rerun_url) = Return response ->
        parseResponseBody response = Return responseBody -> ok response = true ->
        fst (rerunWorkflowRun env owner repo runId s) = Return (ack " restarted"))
  /\ (forall v, fst (cancelWorkflowRun env owner repo runId s) = Return v ->
                v = ack " cancelled")
  /\ (forall v, fst (rerunWorkflowRun env owner repo runId s) = Return v ->
                v = ack " restarted").
Proof.
  intros Ho Hr Hq base cancel_url rerun_url ack sent.
  assert (Ec : cancelWorkflowRun env owner repo runId s
               = (githubRequest env cancel_url post ;; ret (ack " cancelled"))
                   %gateway s).
  { unfold cancelWorkflowRun. rewrite (bind_lift_Return _ _ _ _ Ho).
    rewrite (bind_lift_Return _ _ _ _ Hr). subst cancel_url rerun_url base.
    rewrite !append_assoc. reflexivity. }
  assert (Er : rerunWorkflowRun env owner repo runId s
               = (githubRequest env rerun_url post ;; ret (ack " restarted"))
                   %gateway s).
  { unfold rerunWorkflowRun. rewrite (bind_lift_Return _ _ _ _ Ho).
    rewrite (bind_lift_Return _ _ _ _ Hr). subst cancel_url rerun_url base.
    rewrite !append_assoc. reflexivity. }
  rewrite Ec, Er.
  destruct (request_then_ack env cancel_url post (ack " cancelled") s
              eq_refl Hq) as (C1 & C2 & _ & C4).
  destruct (request_then_ack env rerun_url post (ack " restarted") s
              eq_refl Hq) as (R1 & R2 & _ & R4).
  repeat split; assumption.
Qed.
Lemma cancel_and_rerun_witness :
  fst (cancelWorkflowRun Sample.env " Octo " "demo" 42 Sample.start)
  = Return (JObj [("success", JBool true); ("message", JStr "Workflow run 42 cancelled")])
  /\ map fetch_url (fetched (snd (rerunWorkflowRun Sample.env " Octo " "demo" 42 Sample.start)))
     = ["https://api.github.com/repos/octo/demo/actions/runs/42/rerun"].
Proof.
  destruct (cancel_and_rerun Sample.env " Octo " "demo" 42 Sample.start "octo" "demo"
              eq_refl eq_refl eq_refl) as ((_ & Hlog) & Hc & _).
  split.
  - apply (Hc Sample.no_content (JStr "")); reflexivity.
  - rewrite Hlog. reflexivity.
Defined.

(** X17.  For valid names and a call that passes the quota check,
    [triggerWorkflow] sends exactly one POST to the dispatches path of the
    workflow, whose body is [{ref}] when the inputs are missing or empty
    and [{ref, inputs}] otherwise; on a 2xx answer with a readable body it
    returns the acknowledgement naming the workflow and the ref, and it
    never returns anything else. *)
Theorem triggerWorkflow_request (env : Env) (owner repo : string) (workflowId : Scalar)
        (ref : string) (inputs : option (list (string * string))) (s : State)
        (o r : string) :
  validateOwnerName owner = Return o ->
  validateRepositoryName repo = Return r ->
  count_checked env s < 60 ->
  let url := "https://api.github.com/repos/" ++ o ++ "/" ++ r ++ "/actions/workflows/"
               ++ Scalar_toString workflowId ++ "/dispatches" in
  let body := triggerWorkflow_body ref inputs in
  let sent := mkFetchCall url "POST" (request_headers env no_options)
                          (Some (JSON.stringify body)) 30000 in
  let ack := JObj [("success", JBool true);
                   ("message", JStr ("Workflow " ++ Scalar_toString workflowId
                                       ++ " triggered on " ++ ref))] in
  let run := triggerWorkflow env owner repo workflowId ref inputs s in
  fetched (snd run) = (fetched s ++ [sent])%list
  /\ (inputs = None \/ inputs = Some [] -> body = JObj [("ref", JStr ref)])
  /\ (forall kv l, inputs = Some (kv :: l) ->
        body = JObj [("ref", JStr ref);
                     ("inputs", JObj (map (fun p => (fst p, JStr (snd p))) (kv :: l)))])
  /\ (forall response responseBody,
        fetch env (List.length (fetched s)) sent = Return response ->
        parseResponseBody response = Return responseBody -> ok response = true ->
        fst run = Return ack)
  /\ (forall v, fst run = Return v -> v = ack).
Proof.
  intros Ho Hr Hq url body sent ack run.
  assert (E : run = (githubRequest env url
                       (mkRequestOptions (Some "POST") (Some body) [] None) ;; ret ack)
                      %gateway s).
  { subst run. unfold triggerWorkflow. rewrite (bind_lift_Return _ _ _ _ Ho).
    rewrite (bind_lift_Return _ _ _ _ Hr). reflexivity. }
  rewrite E.
  destruct (request_then_ack env url (mkRequestOptions (Some "POST") (Some body) [] None)
              ack s eq_refl Hq) as (T1 & T2 & _ & T4).
  split; [exact T1|]. split; [|split; [|split]].
  - intros [-> | ->]; reflexivity.
  - intros kv l ->. reflexivity.
  - exact T2.
  - exact T4.
Qed.

Lemma triggerWorkflow_request_witness :
  map fetch_body
      (fetched (snd (triggerWorkflow Sample.env "octo" "demo" (Num 7) "v1.2"
                       (Some [("env", "prod")]) Sample.start)))
  = [Some ("{" ++ JSON.dquote ++ "ref" ++ JSON.dquote ++ ":" ++ JSON.dquote ++ "v1.2"
               ++ JSON.dquote ++ "," ++ JSON.dquote ++ "inputs" ++ JSON.dquote ++ ":{"
               ++ JSON.dquote ++ "env" ++ JSON.dquote ++ ":" ++ JSON.dquote ++ "prod"
               ++ JSON.dquote ++ "}}")]
  /\ map fetch_url
       (fetched (snd (triggerWorkflow Sample.env "octo" "demo" (Num 7) "v1.2"
                        (Some [("env", "prod")]) Sample.start)))
     = ["https://api.github.com/repos/octo/demo/actions/workflows/7/dispatches"].
Proof.
  destruct (triggerWorkflow_request Sample.env "octo" "demo" (Num 7) "v1.2"
              (Some [("env", "prod")]) Sample.start "octo" "demo"
              eq_refl eq_refl eq_refl) as (Hlog & _).
  rewrite Hlog. split; reflexivity.
Defined.

(** A [GitHubError] that leaves a sequence comes from its first part when
    the rest throws plain errors only. *)
Lemma bind_throws_GitHub {A B} (m : M A) (k : A -> M B) s g :
  (forall a st x, fst (k a st) = Throw x -> exists e, x = Plain e) ->
  fst (Gateway.bind m k s) = Throw (GitHub g) -> fst (m s) = Throw (GitHub g).
Proof.
  intros Hk. unfold Gateway.bind. destruct (m s) as [[a|x] s']; cbn [fst];
    [|intros [= ->]; reflexivity].
  intros H. destruct (Hk _ _ _ H) as [e He]. discriminate.
Qed.

Lemma lift_throws_plain {A} (c : Completion JsError A) st x :
  fst (lift c st) = Throw x -> exists e, x = Plain e.
Proof. destruct c; cbn; [discriminate | intros [= <-]; eauto]. Qed.

Lemma ret_never_throws {A} (a : A) st (x : Exn) :
  fst (ret a st) = Throw x -> exists e, x = Plain e.
Proof. discriminate. Qed.

(** With a network that aborts every request, the only [GitHubError] of
    [githubRequest] is the Timeout error of the delay of the request. *)
Lemma githubRequest_aborted env url options s g :
  (forall k c, exists e, fetch env k c = Throw e /\ err_name e = "AbortError") ->
  fst (githubRequest env url options s) = Throw (GitHub g) ->
  g = new_GitHubTimeoutError
        ("Request timeout after " ++ Number_toString (request_timeout options) ++ "ms")
        (request_timeout options).
Proof.
  intros Hab H.
  destruct (Z.lt_ge_cases (requestCount (rolled env s)) 60) as [Hq|Hq].
  - destruct (on_trusted_host url) eqn:Hu.
    + rewrite (githubRequest_sent _ _ _ _ Hq Hu) in H.
      destruct (Hab (List.length (fetched (admitted (rolled env s))))
                    (fetch_call env url options)) as (e & He & Hn).
      rewrite (send_rejected _ _ _ _ _ He) in H. cbn [on_error] in H.
      rewrite Hn in H. cbn in H. now injection H as <-.
    + rewrite (githubRequest_off_host _ _ _ _ Hq Hu) in H. discriminate.
  - rewrite (githubRequest_closed _ _ _ _ Hq) in H. discriminate.
Qed.

Ltac skip_validation c H :=
  destruct c as [?|?] eqn:?; cbn [lift ret throw] in H; [|discriminate].

(** X18.  No operation passes a timeout of its own: when the network
    aborts every request, the only [GitHubError] a tool call can end with is
    the Timeout error of the default 30000 ms, which the handler reports as
    the plain error [Timeout: Request timeout after 30000ms], then
    [Timeout setting: 30000ms] on a line of its own. *)
Theorem aborted_call_report (schemas : Schemas) (toISOString : Z -> string) (env : Env)
        (call : ToolCall) (s : State) (g : GitHubError) :
  (forall k c, exists e, fetch env k c = Throw e /\ err_name e = "AbortError") ->
  fst (callOperation schemas env call s) = Throw (GitHub g) ->
  g = new_GitHubTimeoutError "Request timeout after 30000ms" 30000
  /\ rethrow toISOString (Thrown (GitHub g))
     = Thrown (Plain (Error ("Timeout: Request timeout after 30000ms" ++ newline
                               ++ "Timeout setting: 30000ms"))).
Proof.
  intros Hab H.
  assert (Hg : g = new_GitHubTimeoutError "Request timeout after 30000ms" 30000).
  { destruct call; cbn [callOperation] in H;
      unfold listWorkflows, getWorkflow, getWorkflowUsage, listWorkflowRuns,
        getWorkflowRun, getWorkflowRunJobs, triggerWorkflow, cancelWorkflowRun,
        rerunWorkflowRun in H;
      unfold Gateway.bind at 1 in H;
      (skip_validation (validateOwnerName owner) H);
      unfold Gateway.bind at 1 in H;
      (skip_validation (validateRepositoryName repo) H);
      try (unfold Gateway.bind at 1 in H;
           match type of H with
           | context [lift (buildUrl ?p ?b ?q)] => skip_validation (buildUrl p b q) H
           end);
      (apply bind_throws_GitHub in H;
       [ exact (githubRequest_aborted _ _ _ _ _ Hab H)
       | intros ? ? ?; first [apply lift_throws_plain | apply ret_never_throws] ]). }
  split; [exact Hg|]. subst g. reflexivity.
Qed.

Lemma aborted_call_report_witness :
  rethrow Number_toString
    (Thrown (GitHub (new_GitHubTimeoutError "Request timeout after 30000ms" 30000)))
  = Thrown (Plain (Error ("Timeout: Request timeout after 30000ms" ++ newline
                            ++ "Timeout setting: 30000ms")))
  /\ fst (callOperation passthrough aborting (get_workflow_run "octo" "demo" 5) Sample.start)
     = Throw (GitHub (new_GitHubTimeoutError "Request timeout after 30000ms" 30000)).
Proof.
  split; [|reflexivity].
  apply (aborted_call_report passthrough Number_toString aborting
           (get_workflow_run "octo" "demo" 5) Sample.start).
  - intros k c. eexists. split; reflexivity.
  - reflexivity.
Defined.

(** X19.  The text [formatGitHubError] builds tells the classes apart:
    two errors with the same text have the same class, whatever their
    messages hold. *)
Theorem formatGitHubError_tells_classes (toISOString : Z -> string)
        (e1 e2 : GitHubError) :
  formatGitHubError toISOString e1 = formatGitHubError toISOString e2 ->
  same_class (class e1) (class e2).
Proof.
  unfold formatGitHubError.
  destruct (class e1), (class e2); cbn [same_class]; try exact (fun _ => I);
    repeat match goal with
           | |- context [if ?b then _ else _] => destruct b
           end;
    cbn [append]; intros H; discriminate H.
Qed.

Lemma formatGitHubError_tells_classes_witness :
  formatGitHubError Number_toString (mkGitHubError Generic "Bad Gateway" 502 (Body JNull))
  = formatGitHubError Number_toString
      (mkGitHubError Generic "Bad Gateway" 500 (Body (JStr "Bad Gateway")))
  /\ same_class Generic Generic.
Proof.
  split; [reflexivity|].
  apply (formatGitHubError_tells_classes Number_toString
           (mkGitHubError Generic "Bad Gateway" 502 (Body JNull))
           (mkGitHubError Generic "Bad Gateway" 500 (Body (JStr "Bad Gateway")))).
  reflexivity.
Defined.

(** X20.  A 422 answer whose body is an object with a non-empty string
    [message] becomes a Validation error that keeps the body, and the
    handler reports it as [Validation Error: ] and the message, then
    [Details: ] and the whole body in JSON on a line of its own. *)
Theorem validation_error_report (Date_parse : string -> option Z)
        (toISOString : Z -> string) (now : Z) (fields : list (string * Json))
        (m : string) :
  lookup "message" fields = Some (JStr m) -> m <> "" ->
  exists e,
    createGitHubError Date_parse now 422 (JObj fields) = Return e
    /\ class e = Validation /\ Errors.status e = 422 /\ response e = Body (JObj fields)
    /\ rethrow toISOString (Thrown (GitHub e))
       = Thrown (Plain (Error ("Validation Error: " ++ m ++ newline ++ "Details: "
                                 ++ JSON.stringify (JObj fields)))).
Proof.
  intros Hm Hne. eexists. split.
  - unfold createGitHubError. cbn [Z.eqb Pos.eqb get]. rewrite Hm.
    rewrite or_else_truthy by (destruct m; [contradiction | reflexivity]).
    reflexivity.
  - cbn. auto.
Qed.

Lemma validation_error_report_witness :
  exists e,
    createGitHubError Sample.Date_parse 0 422
      (JObj [("message", JStr "Unprocessable"); ("errors", JArr [JStr "ref"])]) = Return e
    /\ rethrow Number_toString (Thrown (GitHub e))
       = Thrown (Plain (Error ("Validation Error: Unprocessable" ++ newline
                                 ++ "Details: {" ++ JSON.dquote ++ "message" ++ JSON.dquote
                                 ++ ":" ++ JSON.dquote ++ "Unprocessable" ++ JSON.dquote
                                 ++ "," ++ JSON.dquote ++ "errors" ++ JSON.dquote ++ ":["
                                 ++ JSON.dquote ++ "ref" ++ JSON.dquote ++ "]}"))).
Proof.
  destruct (validation_error_report Sample.Date_parse Number_toString 0
              [("message", JStr "Unprocessable"); ("errors", JArr [JStr "ref"])]
              "Unprocessable" eq_refl ltac:(discriminate)) as (e & He & _ & _ & _ & Hr).
  exists e. split; [exact He|]. rewrite Hr. reflexivity.
Defined.

End ServerFacts.
